(** * instrumentserver: client session and configuration splitter

    A shallow embedding of

      - [instrumentserver/client/core.py]  (class [BaseClient], [sendRequest])
      - [instrumentserver/config.py]       ([SERVERFIELDS], [GUIFIELD], [loadConfig])

    Python objects are embedded as first-order data, methods that mutate
    [self] or talk to ZeroMQ as computations in a state-and-exception monad,
    and [try]/[except] as a handler that selects on the class of the raised
    exception, the way the interpreter does. *)

From Stdlib Require Import ZArith String Ascii List Bool Lia.
From stdpp Require Import base tactics option list strings pretty.

Local Open Scope Z_scope.
Local Open Scope string_scope.
Local Open Scope list_scope.

(** ** Python values *)

(** Exception classes that occur in the two modules, with the part of the
    class hierarchy that [isinstance] and [except] clauses look at. *)
Inductive pyclass : Type :=
  | ClsException
  | ClsRuntimeError
  | ClsTypeError
  | ClsAttributeError
  | ClsKeyError
  | ClsValueError
  | ClsWarning
  | ClsUserWarning
  | ClsZMQError
  | ClsAgain.

#[global] Instance pyclass_eq_dec : EqDecision pyclass.
Proof. solve_decision. Defined.

(** Direct base class; [Exception] is the root of what is modelled. *)
Definition base_class (c : pyclass) : option pyclass :=
  match c with
  | ClsException => None
  | ClsUserWarning => Some ClsWarning
  | ClsAgain => Some ClsZMQError
  | _ => Some ClsException
  end.

Fixpoint issubclass_upto (fuel : nat) (c d : pyclass) : bool :=
  if bool_decide (c = d) then true
  else match fuel, base_class c with
       | S fuel', Some b => issubclass_upto fuel' b d
       | _, _ => false
       end.

(** The hierarchy above has depth three. *)
Definition issubclass (c d : pyclass) : bool := issubclass_upto 3 c d.

Record pyexception : Type := PyExc {
  exc_class : pyclass;
  exc_msg : string
}.

#[local] Set Warnings "-register-all".

(** Plain data: what YAML documents and pickled payloads are made of.
    Dictionaries are insertion-ordered and keyed by strings. *)
Inductive pyval : Type :=
  | VNone
  | VBool (b : bool)
  | VInt (z : Z)
  | VStr (s : string)
  | VList (l : list pyval)
  | VDict (d : list (string * pyval)).

(** Objects that travel over the wire: plain data, exception instances and
    [ServerResponse(message, error)]. *)
Inductive pyobj : Type :=
  | OVal (v : pyval)
  | OExc (e : pyexception)
  | OResponse (message error : pyobj).

Definition PyNone : pyobj := OVal VNone.

Definition is_None (o : pyobj) : bool :=
  match o with OVal VNone => true | _ => false end.

(** [isinstance(o, str)] *)
Definition isinstance_str (o : pyobj) : bool :=
  match o with OVal (VStr _) => true | _ => false end.

(** [isinstance(o, C)] for an exception class [C] *)
Definition isinstance_exc (o : pyobj) (C : pyclass) : bool :=
  match o with OExc e => issubclass (exc_class e) C | _ => false end.

(** [isinstance(o, ServerResponse)] *)
Definition isinstance_ServerResponse (o : pyobj) : bool :=
  match o with OResponse _ _ => true | _ => false end.

(** ** Computations that may raise *)

Inductive outcome (A : Type) : Type :=
  | Returned (a : A)
  | Raised (e : pyexception).
Arguments Returned {A} a.
Arguments Raised {A} e.

Definition M (S A : Type) : Type := S -> outcome A * S.

Definition ret {S A} (a : A) : M S A := fun s => (Returned a, s).

Definition raise {S A} (e : pyexception) : M S A := fun s => (Raised e, s).

Definition bind {S A B} (c : M S A) (k : A -> M S B) : M S B :=
  fun s =>
    match c s with
    | (Returned a, s') => k a s'
    | (Raised e, s') => (Raised e, s')
    end.

Notation "x <- c ;; k" := (bind c (fun x => k))
  (at level 100, c at next level, right associativity).
Notation "c ;; k" := (bind c (fun _ => k))
  (at level 100, right associativity).

(** [try: body except C: handler]: the handler runs exactly when the body
    raises an instance of [C]; the state changes made by the body before the
    raise are kept. *)
Definition try_except {S A} (body : M S A) (C : pyclass) (handler : M S A)
  : M S A :=
  fun s =>
    match body s with
    | (Raised e, s') =>
        if issubclass (exc_class e) C then handler s' else (Raised e, s')
    | r => r
    end.

(** [try: body finally: cleanup] *)
Definition try_finally {S A} (body : M S A) (cleanup : M S unit) : M S A :=
  fun s =>
    match body s with
    | (r, s') =>
        match cleanup s' with
        | (Returned _, s'') => (r, s'')
        | (Raised e, s'') => (Raised e, s'')
        end
    end.

Definition RuntimeError (msg : string) : pyexception := PyExc ClsRuntimeError msg.
Definition TypeError (msg : string) : pyexception := PyExc ClsTypeError msg.
Definition AttributeError (msg : string) : pyexception := PyExc ClsAttributeError msg.
Definition KeyError (msg : string) : pyexception := PyExc ClsKeyError msg.
Definition ZMQError (msg : string) : pyexception := PyExc ClsZMQError msg.
Definition Again (msg : string) : pyexception := PyExc ClsAgain msg.

(** ** The client: [instrumentserver/client/core.py] *)

Module Client.

(** *** ZeroMQ as seen by the client *)

(** A REQ socket: its receive timeout ([zmq.RCVTIMEO], -1 when unset), the
    endpoints it was connected to, whether it has been closed, and whether a
    request is outstanding (REQ sockets alternate strictly between send and
    receive). *)
Record zsocket : Type := ZSocket {
  rcvtimeo : Z;
  endpoints : list string;
  closed : bool;
  awaiting : bool
}.

Inductive loglevel : Type := DEBUG | INFO | ERROR.

(** Everything outside the client object: the sockets created so far
    (a socket handle is an index into [sockets]), the number of
    [zmq.Context] objects created, the requests put on the wire (handle and
    message, oldest first), the records emitted through [logger], and the
    warnings issued through [warnings.warn]. *)
Record world : Type := World {
  sockets : list zsocket;
  ncontexts : nat;
  wire : list (nat * pyobj);
  logs : list (loglevel * string);
  warned : list pyexception
}.

Definition with_sockets (l : list zsocket) (w : world) : world :=
  World l (ncontexts w) (wire w) (logs w) (warned w).

(** What the next [recv] on the socket gives: the receive timeout expires
    ([zmq.error.Again]) or an object is unpickled from the reply. *)
Inductive recv_outcome : Type :=
  | RecvAgain
  | RecvObject (o : pyobj).

(** *** The client object *)

Record BaseClient : Type := MkClient {
  connected : bool;
  context : option nat;
  socket : option nat;
  host : string;
  port : Z;
  addr : string;
  raise_exceptions : bool;
  recv_timeout : Z
}.

Definition set_connected (b : bool) (c : BaseClient) : BaseClient :=
  MkClient b (context c) (socket c) (host c) (port c) (addr c)
           (raise_exceptions c) (recv_timeout c).
Definition set_context (x : option nat) (c : BaseClient) : BaseClient :=
  MkClient (connected c) x (socket c) (host c) (port c) (addr c)
           (raise_exceptions c) (recv_timeout c).
Definition set_socket (x : option nat) (c : BaseClient) : BaseClient :=
  MkClient (connected c) (context c) x (host c) (port c) (addr c)
           (raise_exceptions c) (recv_timeout c).

(** A method runs on the client object and the world around it. *)
Definition St : Type := BaseClient * world.

Definition getattr {A} (f : BaseClient -> A) : M St A :=
  fun s => (Returned (f (fst s)), s).

Definition setattr (upd : BaseClient -> BaseClient) : M St unit :=
  fun s => (Returned tt, (upd (fst s), snd s)).

Definition on_world (f : world -> world) : M St unit :=
  fun s => (Returned tt, (fst s, f (snd s))).

Definition logger (lvl : loglevel) (msg : string) : M St unit :=
  on_world (fun w =>
    World (sockets w) (ncontexts w) (wire w) (logs w ++ [(lvl, msg)]) (warned w)).

(** [warnings.warn(err)] under the default filter: the warning is reported
    and execution goes on. *)
Definition warnings_warn (e : pyexception) : M St unit :=
  on_world (fun w =>
    World (sockets w) (ncontexts w) (wire w) (logs w) (warned w ++ [e])).

(** [zmq.Context()] *)
Definition zmq_Context : M St nat :=
  fun s =>
    let w := snd s in
    (Returned (ncontexts w),
     (fst s, World (sockets w) (S (ncontexts w)) (wire w) (logs w) (warned w))).

(** [context.socket(zmq.REQ)]: a fresh socket, not connected anywhere. *)
Definition context_socket (ctx : option nat) : M St nat :=
  match ctx with
  | None => raise (AttributeError "'NoneType' object has no attribute 'socket'")
  | Some _ =>
      fun s =>
        let w := snd s in
        (Returned (length (sockets w)),
         (fst s, with_sockets (sockets w ++ [ZSocket (-1) [] false false]) w))
  end.

(** A method call on [self.socket]: [None] has no methods, a closed socket
    refuses every operation but [close]. *)
Definition on_socket (meth : string) (allow_closed : bool) (sock : option nat)
    (f : zsocket -> outcome zsocket) : M St unit :=
  match sock with
  | None =>
      raise (AttributeError
               ("'NoneType' object has no attribute '" +:+ meth +:+ "'"))
  | Some h =>
      fun s =>
        let w := snd s in
        match sockets w !! h with
        | None => (Raised (ZMQError "Socket operation on non-socket"), s)
        | Some zs =>
            if closed zs && negb allow_closed
            then (Raised (ZMQError "Socket operation on non-socket"), s)
            else match f zs with
                 | Returned zs' =>
                     (Returned tt, (fst s, with_sockets (<[h := zs']> (sockets w)) w))
                 | Raised e => (Raised e, s)
                 end
        end
  end.

(** [socket.setsockopt(zmq.RCVTIMEO, ms)], for a timeout that ZeroMQ takes.
    (It refuses a value that is no C [int] or is below -1; that case is
    not modelled.) *)
Definition setsockopt_RCVTIMEO (sock : option nat) (ms : Z) : M St unit :=
  on_socket "setsockopt" false sock (fun zs =>
    Returned (ZSocket ms (endpoints zs) (closed zs) (awaiting zs))).

(** [socket.connect(addr)], for an address that ZeroMQ takes.  (It
    refuses a malformed one, such as a negative port; that case is not
    modelled.) *)
Definition socket_connect (sock : option nat) (a : string) : M St unit :=
  on_socket "connect" false sock (fun zs =>
    Returned (ZSocket (rcvtimeo zs) (endpoints zs ++ [a]) (closed zs) (awaiting zs))).

(** [socket.close()]; closing twice is allowed. *)
Definition socket_close (sock : option nat) : M St unit :=
  on_socket "close" true sock (fun zs =>
    Returned (ZSocket (rcvtimeo zs) (endpoints zs) true (awaiting zs))).

(** Modelled from the spec: [send] of [instrumentserver.base], a module
    that is not embedded here; the spec gives it as the opaque
    [encodeAndSend(channel, message)] over a transport that enforces strict
    alternation of send then receive.  The message is put on the wire of the
    socket; a socket with a request outstanding refuses to send. *)
Definition send (sock : option nat) (message : pyobj) : M St unit :=
  on_socket "send" false sock (fun zs =>
    if awaiting zs
    then Raised (ZMQError "Operation cannot be accomplished in current state")
    else Returned (ZSocket (rcvtimeo zs) (endpoints zs) (closed zs) true)) ;;
  match sock with
  | Some h =>
      on_world (fun w =>
        World (sockets w) (ncontexts w) (wire w ++ [(h, message)]) (logs w) (warned w))
  | None => ret tt
  end.

(** Modelled from the spec: [recv] of [instrumentserver.base], given in the
    spec as [receiveAndDecode(channel)] with a built-in receive-timeout
    failure signal.  [reply] is what the network delivers: on a timeout the
    socket stays in the state where a reply is outstanding. *)
Definition recv (reply : recv_outcome) (sock : option nat) : M St pyobj :=
  on_socket "recv" false sock (fun zs =>
    if negb (awaiting zs)
    then Raised (ZMQError "Operation cannot be accomplished in current state")
    else match reply with
         | RecvAgain => Raised (Again "Resource temporarily unavailable")
         | RecvObject _ =>
             Returned (ZSocket (rcvtimeo zs) (endpoints zs) (closed zs) false)
         end) ;;
  match reply with
  | RecvObject o => ret o
  | RecvAgain => raise (Again "Resource temporarily unavailable")
  end.

(** [ret.message] *)
Definition get_message (o : pyobj) : M St pyobj :=
  match o with
  | OResponse m _ => ret m
  | _ => raise (AttributeError "object has no attribute 'message'")
  end.

(** [ret.error] *)
Definition get_error (o : pyobj) : M St pyobj :=
  match o with
  | OResponse _ e => ret e
  | _ => raise (AttributeError "object has no attribute 'error'")
  end.

(** [raise err] for an object taken from the reply. *)
Definition raise_obj {A} (o : pyobj) : M St A :=
  match o with
  | OExc e => raise e
  | _ => raise (TypeError "exceptions must derive from BaseException")
  end.

(** The shape of [ret.error], in the order in which [ask] tests for it. *)
Inductive shape : Type :=
  | ShNone | ShText | ShWarning | ShException | ShUnrecognized.

Definition shape_of (err : pyobj) : shape :=
  if is_None err then ShNone
  else if isinstance_str err then ShText
  else if isinstance_exc err ClsWarning then ShWarning
  else if isinstance_exc err ClsException then ShException
  else ShUnrecognized.

(** The channel of the session is there, open, and has no request
    outstanding. *)
Definition ready (s : BaseClient * world) : Prop :=
  exists h zs,
    socket (fst s) = Some h /\ sockets (snd s) !! h = Some zs /\
    closed zs = false /\ awaiting zs = false.

(** The invariant of a session: a connected session has a ready channel. *)
Definition session_ok (s : BaseClient * world) : Prop :=
  connected (fst s) = true -> ready s.

(** What a completed request/reply exchange changes outside the client
    object: one more message on the wire, more log records and warnings; the
    sockets and contexts are as before. *)
Definition exchanged (h : nat) (message : pyobj) (w w' : world) : Prop :=
  sockets w' = sockets w /\ ncontexts w' = ncontexts w /\
  wire w' = wire w ++ [(h, message)].

(** A world in which nothing has happened yet. *)
Definition fresh_world : world := World [] 0 [] [] [].

Section Methods.

(** The builtin [str], used only to build log and error messages. *)
Variable py_str : pyobj -> string.

(** [BaseClient.connect] *)
Definition connect : M St unit :=
  a <- getattr addr ;;
  logger INFO ("Connecting to " +:+ a) ;;
  ctx <- zmq_Context ;;
  setattr (set_context (Some ctx)) ;;
  ctx' <- getattr context ;;
  h <- context_socket ctx' ;;
  setattr (set_socket (Some h)) ;;
  sock <- getattr socket ;;
  ms <- getattr recv_timeout ;;
  setsockopt_RCVTIMEO sock ms ;;
  sock <- getattr socket ;;
  a <- getattr addr ;;
  socket_connect sock a ;;
  setattr (set_connected true).

(** [BaseClient.__init__] *)
Definition init (host : string) (port : Z) (connect_now : bool) (timeout : Z)
    (raise_exceptions : bool) (w : world) : outcome unit * St :=
  let self :=
    MkClient false None None host port
             ("tcp://" +:+ host +:+ ":" +:+ pretty port)
             raise_exceptions timeout in
  (if connect_now then connect else ret tt) (self, w).

(** [BaseClient.disconnect] *)
Definition disconnect : M St unit :=
  sock <- getattr socket ;;
  socket_close sock ;;
  setattr (set_connected false).

(** The body of the [try] statement of [BaseClient.ask]. *)
Definition ask_body (message : pyobj) (reply : recv_outcome) : M St pyobj :=
  sock <- getattr socket ;;
  send sock message ;;
  sock <- getattr socket ;;
  r <- recv reply sock ;;
  logger DEBUG "Response received." ;;
  logger DEBUG ("Response: " +:+ py_str r) ;;
  (if isinstance_ServerResponse r then
     err <- get_error r ;;
     if negb (is_None err) then
       if isinstance_str err then
         logger ERROR (py_str err)
       else if isinstance_exc err ClsWarning then
         match err with OExc e => warnings_warn e | _ => ret tt end
       else if isinstance_exc err ClsException then
         raising <- getattr raise_exceptions ;;
         if raising then raise_obj err
         else logger ERROR ("Server raised the following exception: " +:+ py_str err)
       else
         raising <- getattr raise_exceptions ;;
         if raising then raise (TypeError ("Unknown Error Type: " +:+ py_str err))
         else logger ERROR ("Unknown Error Type: " +:+ py_str err)
     else ret tt
   else ret tt) ;;
  get_message r.

(** The [except zmq.error.Again] clause of [BaseClient.ask]; falling off its
    end returns [None]. *)
Definition ask_on_timeout : M St pyobj :=
  sock <- getattr socket ;;
  socket_close sock ;;
  connect ;;
  raising <- getattr raise_exceptions ;;
  if raising then raise (RuntimeError "Server did not reply before timeout.")
  else logger ERROR "Server did not reply before timeout." ;; ret PyNone.

(** [BaseClient.ask] *)
Definition ask (message : pyobj) (reply : recv_outcome) : M St pyobj :=
  c <- getattr connected ;;
  if negb c then raise (RuntimeError "No connection yet.")
  else try_except (ask_body message reply) ClsAgain ask_on_timeout.

(** [BaseClient.__enter__] *)
Definition enter : M St unit :=
  c <- getattr connected ;;
  if negb c then connect else ret tt.

(** [BaseClient.__exit__] *)
Definition exit : M St unit := disconnect.

(** [sendRequest]: the [with] statement runs [__exit__] on every way out of
    its body. *)
Definition sendRequest (message : pyobj) (host : string) (port : Z)
    (reply : recv_outcome) (w : world) : outcome pyobj * St :=
  match init host port true 5000 true w with
  | (Raised e, s) => (Raised e, s)
  | (Returned _, s) =>
      (enter ;; try_finally (ask message reply) exit) s
  end.

End Methods.

(** The state after
    [BaseClient('localhost', 5555, timeout=100, raise_exceptions=raising)]
    in a fresh world. *)
Definition localhost_session (raising : bool) : St :=
  snd (init "localhost" 5555 true 100 raising fresh_world).

(** A rendering for [str] that tells nothing about the object. *)
Definition str_opaque (o : pyobj) : string := "<object>".

Definition ping : pyobj := OVal (VStr "ping").
Definition pong : pyobj := OVal (VStr "pong").

End Client.

(** ** The configuration splitter: [instrumentserver/config.py] *)

Module Config.

(** *** Insertion-ordered dictionaries *)

Definition pydict : Type := list (string * pyval).

(** [d.get(k)] *)
Fixpoint dict_get (k : string) (d : pydict) : option pyval :=
  match d with
  | [] => None
  | (k', v) :: d' => if String.eqb k k' then Some v else dict_get k d'
  end.

(** [k in d] *)
Definition dict_contains (k : string) (d : pydict) : bool :=
  match dict_get k d with Some _ => true | None => false end.

(** [d[k] = v]: an existing key keeps its position, a new one goes last. *)
Fixpoint dict_set (k : string) (v : pyval) (d : pydict) : pydict :=
  match d with
  | [] => [(k, v)]
  | (k', v') :: d' =>
      if String.eqb k k' then (k', v) :: d' else (k', v') :: dict_set k v d'
  end.

(** [del d[k]] *)
Fixpoint dict_del (k : string) (d : pydict) : pydict :=
  match d with
  | [] => []
  | (k', v') :: d' =>
      if String.eqb k k' then d' else (k', v') :: dict_del k d'
  end.

(** [{**base, **extra}], also [base.update(extra)] *)
Definition dict_update (base extra : pydict) : pydict :=
  fold_left (fun acc kv => dict_set (fst kv) (snd kv) acc) extra base.

(** A Python dictionary holds a key once. *)
Definition dict_wf (d : pydict) : Prop := List.NoDup (map fst d).

(** *** Duck-typed operations on loaded YAML values *)

Definition type_name (v : pyval) : string :=
  match v with
  | VNone => "NoneType"
  | VBool _ => "bool"
  | VInt _ => "int"
  | VStr _ => "str"
  | VList _ => "list"
  | VDict _ => "dict"
  end.

(** [v == k] for a string literal [k] *)
Definition eq_str (v : pyval) (k : string) : bool :=
  match v with VStr s => String.eqb s k | _ => false end.

(** [k in s] for strings: [k] occurs in [s]. *)
Definition str_contains (k s : string) : bool :=
  match String.index 0 k s with Some _ => true | None => false end.

(** [k in v] *)
Definition py_contains (k : string) (v : pyval) : outcome bool :=
  match v with
  | VDict d => Returned (dict_contains k d)
  | VStr s => Returned (str_contains k s)
  | VList l => Returned (existsb (fun x => eq_str x k) l)
  | _ => Raised (TypeError ("argument of type '" +:+ type_name v +:+ "' is not iterable"))
  end.

(** [v.pop(k)]: the value removed and what is left of [v]. *)
Definition py_pop (k : string) (v : pyval) : outcome (pyval * pyval) :=
  match v with
  | VDict d =>
      match dict_get k d with
      | Some x => Returned (x, VDict (dict_del k d))
      | None => Raised (KeyError k)
      end
  | VList _ => Raised (TypeError "'str' object cannot be interpreted as an integer")
  | _ => Raised (AttributeError ("'" +:+ type_name v +:+ "' object has no attribute 'pop'"))
  end.

(** [v[k]] *)
Definition py_getitem (k : string) (v : pyval) : outcome pyval :=
  match v with
  | VDict d =>
      match dict_get k d with
      | Some x => Returned x
      | None => Raised (KeyError k)
      end
  | VStr _ => Raised (TypeError "string indices must be integers")
  | VList _ => Raised (TypeError "list indices must be integers or slices, not str")
  | _ => Raised (TypeError ("'" +:+ type_name v +:+ "' object is not subscriptable"))
  end.

(** [v[k] = x] *)
Definition py_setitem (k : string) (x : pyval) (v : pyval) : outcome pyval :=
  match v with
  | VDict d => Returned (VDict (dict_set k x d))
  | VList _ => Raised (TypeError "list indices must be integers or slices, not str")
  | _ => Raised (TypeError ("'" +:+ type_name v +:+ "' object does not support item assignment"))
  end.

(** [v.items()] *)
Definition py_items (v : pyval) : outcome pydict :=
  match v with
  | VDict d => Returned d
  | _ => Raised (AttributeError ("'" +:+ type_name v +:+ "' object has no attribute 'items'"))
  end.

(** [**v] inside a dictionary display *)
Definition py_mapping (v : pyval) : outcome pydict :=
  match v with
  | VDict d => Returned d
  | _ => Raised (TypeError ("'" +:+ type_name v +:+ "' object is not a mapping"))
  end.

#[global] Instance outcome_ret : MRet outcome := fun _ a => Returned a.
#[global] Instance outcome_bind : MBind outcome := fun _ _ k c =>
  match c with
  | Returned a => k a
  | Raised e => Raised e
  end.

(** *** Module constants *)

Definition SERVERFIELDS : pydict := [("initialize", VBool true)].

(** The class path of the generic instrument GUI. *)
Definition default_gui_type : string :=
  "instrumentserver.gui.instruments.GenericInstrument".

Definition GUIFIELD : pydict :=
  [("type", VStr default_gui_type); ("kwargs", VDict [])].

(** [GUIFIELD['type']] *)
Definition GUIFIELD_type : outcome pyval := py_getitem "type" (VDict GUIFIELD).

(** *** [loadConfig] *)

Definition dquote : string := String "034"%char EmptyString.

(** [AttributeError(f'"{field}" field cannot be None')] *)
Definition cannot_be_None (field : string) : pyexception :=
  AttributeError (dquote +:+ field +:+ dquote +:+ " field cannot be None").

(** The loop [for field, default in SERVERFIELDS.items()] for one instrument:
    [configDict] loses the fields found, [srv] is [serverConfig[name]]. *)
Fixpoint serverFields (fields : pydict) (configDict : pyval) (srv : pydict)
  : outcome (pyval * pydict) :=
  match fields with
  | [] => Returned (configDict, srv)
  | (field, default) :: fields' =>
      present ← py_contains field configDict;
      if (present : bool) then
        '(fieldSetting, configDict') ← py_pop field configDict;
        match fieldSetting with
        | VNone => Raised (cannot_be_None field)
        | _ => serverFields fields' configDict' (dict_set field fieldSetting srv)
        end
      else serverFields fields' configDict (dict_set field default srv)
  end.

(** The [if 'gui' in configDict] statement for one instrument: what is left
    of [configDict], and [guiConfig[name]]. *)
Definition guiField (configDict : pyval) : outcome (pyval * pyval) :=
  present ← py_contains "gui" configDict;
  if (present : bool) then
    '(guiDict, configDict') ← py_pop "gui" configDict;
    match guiDict with
    | VNone => Raised (cannot_be_None "gui")
    | _ =>
        has_type ← py_contains "type" guiDict;
        guiDict' ←
          (if (has_type : bool) then
             t ← py_getitem "type" guiDict;
             if eq_str t "generic" then
               d ← GUIFIELD_type; py_setitem "type" d guiDict
             else
               t' ← py_getitem "type" guiDict;
               if eq_str t' "Generic" then
                 d ← GUIFIELD_type; py_setitem "type" d guiDict
               else mret guiDict
           else
             d ← GUIFIELD_type; py_setitem "type" d guiDict);
        mret (configDict', guiDict')
    end
  else mret (configDict, VDict GUIFIELD).

(** What one pass of the loop over the instruments produces. *)
Record instrument : Type := Instrument {
  stationPart : pyval;   (* [configDict] after the fields were popped *)
  serverPart : pydict;   (* [serverConfig[instrumentName]] *)
  guiPart : pyval;       (* [guiConfig[instrumentName]] *)
  fullPart : pydict      (* [fullConfig[instrumentName]] *)
}.

(** The body of [for instrumentName, configDict in ...items()]. *)
Definition splitInstrument (configDict : pyval) : outcome instrument :=
  '(configDict1, srv) ← serverFields SERVERFIELDS configDict [];
  '(configDict2, gui) ← guiField configDict1;
  rest ← py_mapping configDict2;
  mret (Instrument configDict2 srv gui
          (dict_update (dict_update [("gui", gui)] rest) srv)).

(** The pass of the loop for this entry of the instruments raises nothing. *)
Definition splits (p : string * pyval) : Prop :=
  exists i, splitInstrument (snd p) = Returned i.

(** The local variables of [loadConfig] that the loop updates;
    [instruments] is [rawConfig['instruments']], whose values are changed
    in place. *)
Record locals : Type := Locals {
  instruments : pydict;
  serverConfig : pydict;
  guiConfig : pydict;
  fullConfig : pydict
}.

(** The loop, with the settings of each instrument taken by value from
    the document as read.  This is the loop of the code for a document in
    which no two instruments have one and the same settings object;
    [Shared.splitShared] below is the loop on the objects themselves, as
    needed when a YAML alias makes two instruments share their settings. *)
Fixpoint splitInstruments (items : pydict) (st : locals) : outcome locals :=
  match items with
  | [] => Returned st
  | (instrumentName, configDict) :: items' =>
      i ← splitInstrument configDict;
      splitInstruments items'
        (Locals (dict_set instrumentName (stationPart i) (instruments st))
                (dict_set instrumentName (VDict (serverPart i)) (serverConfig st))
                (dict_set instrumentName (guiPart i) (guiConfig st))
                (dict_set instrumentName (VDict (fullPart i)) (fullConfig st)))
  end.

(** [loadConfig] up to the end of its loop, on the document that
    [yaml.load] returned. *)
Definition splitConfig (rawConfig : pyval) : outcome locals :=
  insts ← py_getitem "instruments" rawConfig;
  items ← py_items insts;
  splitInstruments items (Locals items [] [] []).

(** What [loadConfig] returns: [stationConfig] is [rawConfig] after the
    loop, the mapping given to [yaml.dump] for the temporary file that
    [tempFilePath] and [tempFile] refer to.  (What the dump writes for a
    mapping that was read with a YAML merge key is not modelled.) *)
Record loaded : Type := Loaded {
  stationConfig : pyval;
  ret_serverConfig : pydict;
  ret_fullConfig : pydict
}.

Definition loadConfig (rawConfig : pyval) : outcome loaded :=
  st ← splitConfig rawConfig;
  (* the instrument dictionaries were changed in place inside [rawConfig] *)
  rawConfig' ← py_setitem "instruments" (VDict (instruments st)) rawConfig;
  mret (Loaded rawConfig' (serverConfig st) (fullConfig st)).

(** *** The words of the specification *)

(** [merge(a, b, c)]: the union of three mappings, later ones winning. *)
Definition spec_merge (a b c : pydict) : pydict :=
  dict_update (dict_update a b) c.

Definition ascii_lower (c : ascii) : ascii :=
  let n := nat_of_ascii c in
  if (65 <=? n)%nat && (n <=? 90)%nat then ascii_of_nat (n + 32) else c.

Fixpoint str_lower (s : string) : string :=
  match s with
  | EmptyString => EmptyString
  | String c s' => String (ascii_lower c) (str_lower s')
  end.

(** Equal up to the case of the letters. *)
Definition eq_nocase (a b : string) : bool :=
  String.eqb (str_lower a) (str_lower b).

(** *** Sample documents *)

(** [instruments: {scope: {driver: ..., initialize: false, gui: {type: Generic}},
                   dummy: {}}] *)
Definition scope_settings : pydict :=
  [("driver", VStr "qcodes.Scope"); ("initialize", VBool false);
   ("gui", VDict [("type", VStr "Generic")])].

Definition two_instruments : pydict :=
  [("instruments", VDict [("scope", VDict scope_settings); ("dummy", VDict [])])].

(** [instruments: {scope: {gui: {type: GENERIC}}}] *)
Definition shouting_gui : pydict :=
  [("instruments", VDict [("scope", VDict [("gui", VDict [("type", VStr "GENERIC")])])])].

(** [instruments: {scope: {initialize: null}}] *)
Definition null_initialize : pydict :=
  [("instruments", VDict [("scope", VDict [("initialize", VNone)])])].

(** [instruments: {scope: {gui: null}}] *)
Definition null_gui : pydict :=
  [("instruments", VDict [("scope", VDict [("gui", VNone)])])].

(** Settings that are a mapping with no server field and no [gui] entry. *)
Definition plain_settings (p : string * pyval) : Prop :=
  exists cfg, snd p = VDict cfg /\
              dict_get "initialize" cfg = None /\ dict_get "gui" cfg = None.

(** [instruments: {scope: {driver: qcodes.Scope}, dummy: {}}] *)
Definition plain_document : pydict :=
  [("station", VStr "lab");
   ("instruments", VDict [("scope", VDict [("driver", VStr "qcodes.Scope")]);
                          ("dummy", VDict [])])].

(** A table of two server fields, as [SERVERFIELDS] would be after adding
    a field to it. *)
Definition two_fields : pydict :=
  [("initialize", VBool true); ("autostart", VBool false)].

End Config.

(** ** Settings shared between instruments *)

Module Shared.
Import Config.

(** The objects that [yaml.load] made for the settings of the instruments,
    by identity: a reference is a number, and two instruments whose
    settings are one YAML node (an anchor and its aliases) have the same
    reference. *)
Definition heap : Type := nat -> pyval.

(** The object behind [ref] changed in place. *)
Definition heap_set (ref : nat) (v : pyval) (h : heap) : heap :=
  fun r => if Nat.eqb r ref then v else h r.

(** The local variables of [loadConfig] that the loop updates, with the
    objects behind [rawConfig['instruments']] in place of their values. *)
Record shared_locals : Type := SharedLocals {
  objects : heap;
  sh_serverConfig : pydict;
  sh_guiConfig : pydict;
  sh_fullConfig : pydict
}.

(** The loop [for instrumentName, configDict in rawConfig['instruments'].items()]
    on the objects: [configDict] is the object as it is when its turn
    comes, and what the pass pops is gone from the object afterwards. *)
Fixpoint splitShared (items : list (string * nat)) (st : shared_locals)
  : outcome shared_locals :=
  match items with
  | [] => Returned st
  | (instrumentName, ref) :: items' =>
      i ← splitInstrument (objects st ref);
      splitShared items'
        (SharedLocals
           (heap_set ref (stationPart i) (objects st))
           (dict_set instrumentName (VDict (serverPart i)) (sh_serverConfig st))
           (dict_set instrumentName (guiPart i) (sh_guiConfig st))
           (dict_set instrumentName (VDict (fullPart i)) (sh_fullConfig st)))
  end.

(** [loadConfig] up to the end of its loop, on a document whose
    [instruments] entry maps the names to the objects of [h]. *)
Definition loadShared (items : list (string * nat)) (h : heap)
  : outcome shared_locals :=
  splitShared items (SharedLocals h [] [] []).

(** The [instruments] mapping as written: every name with the value its
    settings have when the document has just been read. *)
Definition as_written (h : heap) (items : list (string * nat)) : pydict :=
  map (fun p => (fst p, h (snd p))) items.

(** [instruments: {scope: &s {initialize: false, gui: {type: my.Gui}},
                   spare: *s}] *)
Definition aliased_items : list (string * nat) := [("scope", 0%nat); ("spare", 0%nat)].

Definition aliased_settings : pydict :=
  [("initialize", VBool false); ("gui", VDict [("type", VStr "my.Gui")])].

Definition aliased_heap : heap :=
  fun r => match r with O => VDict aliased_settings | S _ => VNone end.



End Shared.

(** * Properties of the client *)

Module ClientFacts.
Import Client.

Lemma lookup_snoc {A} (l : list A) (x : A) : (l ++ [x]) !! length l = Some x.
Proof. induction l; simpl; auto. Qed.

Lemma insert_snoc {A} (l : list A) (x y : A) :
  <[length l := y]> (l ++ [x]) = l ++ [y].
Proof. induction l; simpl; [reflexivity | f_equal; assumption]. Qed.

Lemma on_socket_run meth allow h f zs zs' (self : BaseClient) (w : world) :
  sockets w !! h = Some zs ->
  closed zs && negb allow = false ->
  f zs = Returned zs' ->
  on_socket meth allow (Some h) f (self, w)
  = (Returned tt, (self, with_sockets (<[h := zs']> (sockets w)) w)).
Proof.
  intros Hl Hc Hf. unfold on_socket. simpl. rewrite Hl, Hc, Hf. reflexivity.
Qed.

(** [connect] always succeeds, and this is the state it leaves. *)
Lemma connect_run (self : BaseClient) (w : world) :
  connect (self, w)
  = (Returned tt,
     (MkClient true (Some (ncontexts w)) (Some (length (sockets w)))
               (host self) (port self) (addr self)
               (raise_exceptions self) (recv_timeout self),
      World (sockets w ++ [ZSocket (recv_timeout self) [addr self] false false])
            (S (ncontexts w)) (wire w)
            (logs w ++ [(INFO, "Connecting to " +:+ addr self)]) (warned w))).
Proof.
  unfold connect, bind, getattr, setattr, logger, on_world, zmq_Context,
    context_socket, setsockopt_RCVTIMEO, socket_connect, on_socket. simpl.
  rewrite lookup_snoc. simpl. rewrite insert_snoc, lookup_snoc. simpl.
  unfold with_sockets. simpl. rewrite insert_snoc. reflexivity.
Qed.

(** Unfolding of the monadic plumbing and of the socket primitives. *)
Create HintDb pyrun.
#[local] Hint Unfold bind ret raise getattr setattr logger warnings_warn on_world
  send recv socket_close on_socket with_sockets get_error get_message
  raise_obj try_except : pyrun.

Ltac run := repeat progress (autounfold with pyrun; simpl).

(** Under the invariant, [send] followed by a [recv] that times out leaves
    the request on the wire and the socket waiting for its reply. *)
Lemma ask_body_timeout py_str (self : BaseClient) (w : world) message h zs :
  socket self = Some h -> sockets w !! h = Some zs ->
  closed zs = false -> awaiting zs = false ->
  ask_body py_str message RecvAgain (self, w)
  = (Raised (Again "Resource temporarily unavailable"),
     (self,
      World (<[h := ZSocket (rcvtimeo zs) (endpoints zs) false true]> (sockets w))
            (ncontexts w) (wire w ++ [(h, message)]) (logs w) (warned w))).
Proof.
  intros Hs Hl Hc Ha. unfold ask_body.
  repeat progress (run; rewrite ?Hs, ?Hl, ?Hc, ?Ha; simpl).
  rewrite list_lookup_insert_eq by (eapply lookup_lt_Some; eassumption).
  run. rewrite ?Hc. reflexivity.
Qed.


Ltac ask_run :=
  repeat progress
    (run;
     repeat match goal with
       | H : connected _ = _ |- _ => rewrite H
       | H : socket _ = _ |- _ => rewrite H
       | H : raise_exceptions _ = _ |- _ => rewrite H
       | H : sockets _ !! _ = _ |- _ => rewrite H
       | H : closed _ = _ |- _ => rewrite H
       | H : awaiting _ = _ |- _ => rewrite H
       end;
     simpl;
     rewrite ?list_lookup_insert_eq by (eapply lookup_lt_Some; eassumption);
     simpl).

(** The [except] clause: the old socket is closed, a new one is connected
    to the same address. *)
Lemma ask_on_timeout_run (self : BaseClient) (w : world) h zs :
  socket self = Some h -> sockets w !! h = Some zs ->
  ask_on_timeout (self, w)
  = ((if raise_exceptions self
      then Raised (RuntimeError "Server did not reply before timeout.")
      else Returned PyNone),
     (MkClient true (Some (ncontexts w)) (Some (length (sockets w)))
               (host self) (port self) (addr self)
               (raise_exceptions self) (recv_timeout self),
      World (<[h := ZSocket (rcvtimeo zs) (endpoints zs) true (awaiting zs)]> (sockets w)
               ++ [ZSocket (recv_timeout self) [addr self] false false])
            (S (ncontexts w)) (wire w)
            (logs w ++ [(INFO, "Connecting to " +:+ addr self)]
               ++ (if raise_exceptions self then []
                   else [(ERROR, "Server did not reply before timeout.")]))
            (warned w))).
Proof.
  intros Hs Hl. unfold ask_on_timeout.
  unfold bind at 1, getattr at 1. simpl.
  unfold bind at 1. unfold socket_close, on_socket. rewrite Hs. simpl.
  rewrite Hl. rewrite andb_false_r. simpl.
  unfold bind at 1. rewrite connect_run. simpl.
  rewrite length_insert.
  destruct (raise_exceptions self); run; rewrite <- ?app_assoc; reflexivity.
Qed.

(** The whole of [ask] when the receive timeout expires. *)
Lemma ask_timeout_run py_str (self : BaseClient) (w : world) message h zs :
  connected self = true ->
  socket self = Some h -> sockets w !! h = Some zs ->
  closed zs = false -> awaiting zs = false ->
  ask py_str message RecvAgain (self, w)
  = ((if raise_exceptions self
      then Raised (RuntimeError "Server did not reply before timeout.")
      else Returned PyNone),
     (MkClient true (Some (ncontexts w)) (Some (length (sockets w)))
               (host self) (port self) (addr self)
               (raise_exceptions self) (recv_timeout self),
      World (<[h := ZSocket (rcvtimeo zs) (endpoints zs) true true]> (sockets w)
               ++ [ZSocket (recv_timeout self) [addr self] false false])
            (S (ncontexts w)) (wire w ++ [(h, message)])
            (logs w ++ [(INFO, "Connecting to " +:+ addr self)]
               ++ (if raise_exceptions self then []
                   else [(ERROR, "Server did not reply before timeout.")]))
            (warned w))).
Proof.
  intros Hcon Hs Hl Hc Ha.
  pose proof (lookup_lt_Some _ _ _ Hl) as Hlt.
  unfold ask, bind at 1, getattr at 1. simpl. rewrite Hcon. simpl.
  unfold try_except.
  rewrite (ask_body_timeout py_str self w message h zs Hs Hl Hc Ha).
  simpl.
  erewrite ask_on_timeout_run;
    [ | exact Hs | simpl; apply list_lookup_insert_eq; exact Hlt ].
  simpl. rewrite list_insert_insert_eq, length_insert. reflexivity.
Qed.

Lemma insert_same_socket (l : list zsocket) h zs :
  l !! h = Some zs -> closed zs = false -> awaiting zs = false ->
  <[h := ZSocket (rcvtimeo zs) (endpoints zs) false false]> l = l.
Proof.
  intros Hl Hc Ha. apply list_insert_id. rewrite Hl. f_equal.
  destruct zs; simpl in *; subst; reflexivity.
Qed.

Ltac finish_exchange :=
  eexists; split; [reflexivity | ];
  unfold exchanged; simpl;
  rewrite ?list_insert_insert_eq;
  rewrite ?insert_same_socket by assumption;
  repeat split; reflexivity.

(** [ask] when a [ServerResponse] arrives and nothing is raised: the message
    field is returned, whatever the error field holds. *)
Lemma ask_reply_returns py_str (self : BaseClient) (w : world) message m e h zs :
  connected self = true ->
  socket self = Some h -> sockets w !! h = Some zs ->
  closed zs = false -> awaiting zs = false ->
  raise_exceptions self = false \/ shape_of e = ShNone \/
    shape_of e = ShText \/ shape_of e = ShWarning ->
  exists w',
    ask py_str message (RecvObject (OResponse m e)) (self, w)
    = (Returned m, (self, w')) /\ exchanged h message w w'.
Proof.
  intros Hcon Hs Hl Hc Ha Hquiet.
  pose proof (lookup_lt_Some _ _ _ Hl) as Hlt.
  unfold ask, ask_body.
  destruct (raise_exceptions self) eqn:Hr.
  - destruct Hquiet as [Hq | Hq]; [discriminate | ].
    destruct e as [[]|[c msg]|]; try destruct c;
      try (exfalso; clear - Hq; compute in Hq; intuition discriminate);
      ask_run; finish_exchange.
  - clear Hquiet.
    destruct e as [[]|[c msg]|]; try destruct c; ask_run; finish_exchange.
Qed.

(** With [raise_exceptions] set, an exception in the error field that is
    neither a warning nor a [zmq.error.Again] is raised to the caller, and the
    channel is as before. *)
Lemma ask_reply_raises py_str (self : BaseClient) (w : world) message m x h zs :
  connected self = true ->
  socket self = Some h -> sockets w !! h = Some zs ->
  closed zs = false -> awaiting zs = false ->
  raise_exceptions self = true ->
  shape_of (OExc x) = ShException ->
  issubclass (exc_class x) ClsAgain = false ->
  exists w',
    ask py_str message (RecvObject (OResponse m (OExc x))) (self, w)
    = (Raised x, (self, w')) /\ exchanged h message w w'.
Proof.
  intros Hcon Hs Hl Hc Ha Hr Hsh Hag.
  pose proof (lookup_lt_Some _ _ _ Hl) as Hlt.
  unfold ask, ask_body.
  destruct x as [c msg]; destruct c;
    try (exfalso; clear - Hsh; compute in Hsh; discriminate);
    try (exfalso; clear - Hag; compute in Hag; discriminate);
    ask_run; finish_exchange.
Qed.

(** An error field of no known shape: a [TypeError] when [raise_exceptions]
    is set, a log record and the message otherwise. *)
Lemma ask_reply_unrecognized py_str (self : BaseClient) (w : world) message m e h zs :
  connected self = true ->
  socket self = Some h -> sockets w !! h = Some zs ->
  closed zs = false -> awaiting zs = false ->
  shape_of e = ShUnrecognized ->
  exists w',
    ask py_str message (RecvObject (OResponse m e)) (self, w)
    = ((if raise_exceptions self
        then Raised (TypeError ("Unknown Error Type: " +:+ py_str e))
        else Returned m), (self, w')) /\ exchanged h message w w'.
Proof.
  intros Hcon Hs Hl Hc Ha Hsh.
  pose proof (lookup_lt_Some _ _ _ Hl) as Hlt.
  unfold ask, ask_body.
  destruct (raise_exceptions self) eqn:Hr;
    (destruct e as [[]|[c msg]|]; try destruct c;
     try (exfalso; clear - Hsh; compute in Hsh; discriminate);
     ask_run; finish_exchange).
Qed.

(** *** The session invariant *)

Lemma connect_ready (s : St) : ready (snd (connect s)).
Proof.
  destruct s as [self w]. rewrite connect_run. simpl.
  exists (length (sockets w)), (ZSocket (recv_timeout self) [addr self] false false).
  simpl. rewrite lookup_snoc. auto.
Qed.

Lemma init_ok host port connect_now timeout raising w :
  fst (init host port connect_now timeout raising w) = Returned tt /\
  session_ok (snd (init host port connect_now timeout raising w)).
Proof.
  unfold init. destruct connect_now.
  - rewrite connect_run. split; [reflexivity | ].
    intros _. rewrite <- connect_run. apply connect_ready.
  - split; [reflexivity | ]. intros H. discriminate H.
Qed.

Lemma disconnect_ok (s : St) :
  session_ok s -> session_ok (snd (disconnect s)).
Proof.
  destruct s as [self w]. intros Hok. unfold disconnect. run.
  destruct (socket self) as [h|]; simpl; [ | exact Hok ].
  destruct (sockets w !! h) as [zs|]; simpl; [ | exact Hok ].
  rewrite andb_false_r. simpl. intros H. discriminate H.
Qed.

Lemma ask_ok py_str message reply (s : St) :
  session_ok s -> session_ok (snd (ask py_str message reply s)).
Proof.
  destruct s as [self w]. intros Hok.
  destruct (connected self) eqn:Hcon.
  - destruct (Hok Hcon) as (h & zs & Hs & Hl & Hc & Ha). simpl in Hs, Hl.
    pose proof (lookup_lt_Some _ _ _ Hl) as Hlt.
    assert (Hnew : forall self' w', ready (snd (connect (self', w')))) 
      by (intros; apply connect_ready).
    destruct reply as [|o].
    + rewrite (ask_timeout_run py_str self w message h zs) by assumption.
      intros _.
      exists (length (<[h := ZSocket (rcvtimeo zs) (endpoints zs) true true]> (sockets w))),
        (ZSocket (recv_timeout self) [addr self] false false). simpl.
      rewrite lookup_snoc, length_insert. auto.
    + unfold ask, ask_body.
      destruct (raise_exceptions self) eqn:Hr;
        (destruct o as [v|x|m e];
         [ | | destruct e as [[]|[c msg]|]; try destruct c ];
         ask_run;
         rewrite ?list_insert_insert_eq;
         rewrite ?insert_same_socket by assumption;
         try solve [ intros _; exists h, zs; simpl; auto ]).
      erewrite ask_on_timeout_run; [ | exact Hs | simpl; exact Hl ].
      simpl. intros _.
      exists (length (sockets w)),
        (ZSocket (recv_timeout self) [addr self] false false). simpl.
      rewrite <- (length_insert (sockets w) h
                    (ZSocket (rcvtimeo zs) (endpoints zs) true (awaiting zs))).
      rewrite lookup_snoc, length_insert. auto.
  - unfold ask. run. rewrite Hcon. simpl. exact Hok.
Qed.

Lemma localhost_session_ok raising : session_ok (localhost_session raising).
Proof. unfold localhost_session. apply init_ok. Qed.

(** *** Timeout *)

(** C1. When [ask] hits the receive timeout on a connected session, the
    current socket is closed, a fresh socket is created with the session's
    receive timeout and connected to the same address, [connected] stays
    true, the call raises the timeout [RuntimeError] if [raise_exceptions]
    is set and otherwise logs it and returns [None], and the message was put
    on the wire once, on the old socket only. *)
Theorem ask_timeout_replaces_channel py_str (self : BaseClient) (w : world) message :
  connected self = true -> session_ok (self, w) ->
  exists h h' self' w',
    socket self = Some h /\
    ask py_str message RecvAgain (self, w)
    = ((if raise_exceptions self
        then Raised (RuntimeError "Server did not reply before timeout.")
        else Returned PyNone), (self', w')) /\
    (exists zs', sockets w' !! h = Some zs' /\ closed zs' = true) /\
    socket self' = Some h' /\ sockets w !! h' = None /\
    sockets w' !! h'
      = Some (ZSocket (recv_timeout self) [addr self] false false) /\
    connected self' = true /\ addr self' = addr self /\
    raise_exceptions self' = raise_exceptions self /\
    recv_timeout self' = recv_timeout self /\
    wire w' = wire w ++ [(h, message)] /\
    (raise_exceptions self = false ->
     logs w' = logs w ++ [(INFO, "Connecting to " +:+ addr self);
                          (ERROR, "Server did not reply before timeout.")]).
Proof.
  intros Hcon Hok. destruct (Hok Hcon) as (h & zs & Hs & Hl & Hc & Ha).
  simpl in Hs, Hl. pose proof (lookup_lt_Some _ _ _ Hl) as Hlt.
  exists h, (length (sockets w)). eexists. eexists.
  split; [exact Hs | ].
  split; [apply (ask_timeout_run py_str self w message h zs); assumption | ].
  simpl. repeat split.
  - exists (ZSocket (rcvtimeo zs) (endpoints zs) true true).
    split; [ | reflexivity ].
    rewrite lookup_app_l by (rewrite length_insert; exact Hlt).
    apply list_lookup_insert_eq. exact Hlt.
  - apply lookup_ge_None_2. lia.
  - rewrite <- (length_insert (sockets w) h
                  (ZSocket (rcvtimeo zs) (endpoints zs) true true)).
    apply lookup_snoc.
  - intros Hr. rewrite Hr. reflexivity.
Qed.

Lemma ask_timeout_replaces_channel_witness :
  connected (fst (localhost_session true)) = true /\
  session_ok (localhost_session true) /\
  exists h h' self' w',
    socket (fst (localhost_session true)) = Some h /\
    ask str_opaque ping RecvAgain (localhost_session true)
    = (Raised (RuntimeError "Server did not reply before timeout."), (self', w')) /\
    (exists zs', sockets w' !! h = Some zs' /\ closed zs' = true) /\
    socket self' = Some h' /\
    sockets (snd (localhost_session true)) !! h' = None /\
    sockets w' !! h' = Some (ZSocket 100 ["tcp://localhost:5555"] false false) /\
    connected self' = true /\ addr self' = "tcp://localhost:5555" /\
    raise_exceptions self' = true /\ recv_timeout self' = 100 /\
    wire w' = [(h, ping)] /\
    (true = false ->
     logs w' = logs (snd (localhost_session true))
               ++ [(INFO, "Connecting to tcp://localhost:5555");
                   (ERROR, "Server did not reply before timeout.")]).
Proof.
  split; [reflexivity | ].
  split; [apply localhost_session_ok | ].
  apply (ask_timeout_replaces_channel str_opaque
           (fst (localhost_session true)) (snd (localhost_session true)) ping).
  - reflexivity.
  - apply localhost_session_ok.
Defined.

(** The scenario of a server that is silent and then answers: the first
    [ask] raises the timeout error, the second one, on the socket that
    replaced the first, returns the reply. *)
Example silent_then_responsive py_str :
  fst (ask py_str ping RecvAgain (localhost_session true))
  = Raised (RuntimeError "Server did not reply before timeout.") /\
  fst (ask py_str ping (RecvObject (OResponse pong PyNone))
         (snd (ask py_str ping RecvAgain (localhost_session true))))
  = Returned pong /\
  wire (snd (snd (ask py_str ping (RecvObject (OResponse pong PyNone))
         (snd (ask py_str ping RecvAgain (localhost_session true))))))
  = [(0%nat, ping); (1%nat, ping)].
Proof. repeat split. Qed.

(** *** Without [raise_exceptions] *)

(** C2. On a connected session with [raise_exceptions] off, [ask] raises
    for no reply: a [ServerResponse] gives its message field whatever its
    error field holds (nothing, a string, a warning, an exception, anything
    else), and a timeout gives [None]. *)
Theorem ask_never_aborts_when_not_raising py_str (self : BaseClient) (w : world) message :
  connected self = true -> session_ok (self, w) ->
  raise_exceptions self = false ->
  (forall m e,
     fst (ask py_str message (RecvObject (OResponse m e)) (self, w)) = Returned m) /\
  fst (ask py_str message RecvAgain (self, w)) = Returned PyNone.
Proof.
  intros Hcon Hok Hr. destruct (Hok Hcon) as (h & zs & Hs & Hl & Hc & Ha).
  simpl in Hs, Hl. split.
  - intros m e.
    destruct (ask_reply_returns py_str self w message m e h zs Hcon Hs Hl Hc Ha
                (or_introl Hr)) as (w' & Heq & _).
    rewrite Heq. reflexivity.
  - rewrite (ask_timeout_run py_str self w message h zs Hcon Hs Hl Hc Ha).
    rewrite Hr. reflexivity.
Qed.

Lemma ask_never_aborts_when_not_raising_witness :
  connected (fst (localhost_session false)) = true /\
  session_ok (localhost_session false) /\
  raise_exceptions (fst (localhost_session false)) = false /\
  (forall m e,
     fst (ask str_opaque ping (RecvObject (OResponse m e)) (localhost_session false))
     = Returned m) /\
  fst (ask str_opaque ping RecvAgain (localhost_session false)) = Returned PyNone.
Proof.
  split; [reflexivity | ].
  split; [apply localhost_session_ok | ].
  split; [reflexivity | ].
  apply (ask_never_aborts_when_not_raising str_opaque
           (fst (localhost_session false)) (snd (localhost_session false)) ping).
  - reflexivity.
  - apply localhost_session_ok.
  - reflexivity.
Defined.

(** *** Not connected *)

(** C3. On a session that is not connected, [ask] raises
    [RuntimeError("No connection yet.")] whatever the message, and leaves
    the client object and the world as they were: nothing is sent. *)
Theorem ask_disconnected_fails py_str (self : BaseClient) (w : world) message reply :
  connected self = false ->
  ask py_str message reply (self, w)
  = (Raised (RuntimeError "No connection yet."), (self, w)).
Proof.
  intros Hcon. unfold ask. run. rewrite Hcon. reflexivity.
Qed.

Lemma ask_disconnected_fails_witness :
  connected (fst (snd (init "localhost" 5555 false 100 true fresh_world))) = false /\
  ask str_opaque ping (RecvObject (OResponse pong PyNone))
      (snd (init "localhost" 5555 false 100 true fresh_world))
  = (Raised (RuntimeError "No connection yet."),
     snd (init "localhost" 5555 false 100 true fresh_world)).
Proof.
  split; [reflexivity | ].
  apply (ask_disconnected_fails str_opaque
           (fst (snd (init "localhost" 5555 false 100 true fresh_world)))
           (snd (snd (init "localhost" 5555 false 100 true fresh_world)))).
  reflexivity.
Defined.

(** *** Exceptions sent by the server *)

(** C4, where the code departs from it.  The reply carries an exception in
    its error field, the session has [raise_exceptions] set, and the
    exception is an instance of [zmq.error.Again].  [raise err] happens
    inside the [try] statement, so the [except zmq.error.Again] clause
    catches it: the socket is closed and replaced by a new one, and the
    caller gets the timeout [RuntimeError], not the server's exception. *)
Theorem ask_again_payload_replaces_channel py_str (self : BaseClient) (w : world)
    message m x :
  connected self = true -> session_ok (self, w) ->
  raise_exceptions self = true ->
  issubclass (exc_class x) ClsAgain = true ->
  shape_of (OExc x) = ShException /\
  exists h self' w',
    socket self = Some h /\
    ask py_str message (RecvObject (OResponse m (OExc x))) (self, w)
    = (Raised (RuntimeError "Server did not reply before timeout."), (self', w')) /\
    RuntimeError "Server did not reply before timeout." <> x /\
    socket self' = Some (length (sockets w)) /\
    socket self' <> socket self /\
    exists zs', sockets w' !! h = Some zs' /\ closed zs' = true.
Proof.
  intros Hcon Hok Hr Hag. destruct (Hok Hcon) as (h & zs & Hs & Hl & Hc & Ha).
  simpl in Hs, Hl. pose proof (lookup_lt_Some _ _ _ Hl) as Hlt.
  destruct x as [c msg]. destruct c; try (compute in Hag; discriminate Hag).
  split; [reflexivity | ].
  exists h. eexists. eexists. split; [exact Hs | ]. split.
  - unfold ask, ask_body. ask_run.
    rewrite list_insert_insert_eq, insert_same_socket by assumption.
    erewrite ask_on_timeout_run; [ | exact Hs | simpl; exact Hl ].
    rewrite Hr. reflexivity.
  - simpl. split; [discriminate | ]. split; [reflexivity | ]. split.
    + rewrite Hs. intros Heq. injection Heq as Heq. lia.
    + exists (ZSocket (rcvtimeo zs) (endpoints zs) true (awaiting zs)).
      split; [ | reflexivity ].
      rewrite lookup_app_l by (rewrite length_insert; exact Hlt).
      apply list_lookup_insert_eq. exact Hlt.
Qed.

Lemma ask_again_payload_replaces_channel_witness :
  connected (fst (localhost_session true)) = true /\
  session_ok (localhost_session true) /\
  raise_exceptions (fst (localhost_session true)) = true /\
  issubclass (exc_class (Again "Resource temporarily unavailable")) ClsAgain = true /\
  shape_of (OExc (Again "Resource temporarily unavailable")) = ShException /\
  exists h self' w',
    socket (fst (localhost_session true)) = Some h /\
    ask str_opaque ping
        (RecvObject (OResponse pong (OExc (Again "Resource temporarily unavailable"))))
        (localhost_session true)
    = (Raised (RuntimeError "Server did not reply before timeout."), (self', w')) /\
    RuntimeError "Server did not reply before timeout."
      <> Again "Resource temporarily unavailable" /\
    socket self' = Some 1%nat /\
    socket self' <> socket (fst (localhost_session true)) /\
    exists zs', sockets w' !! h = Some zs' /\ closed zs' = true.
Proof.
  split; [reflexivity | ].
  split; [apply localhost_session_ok | ].
  split; [reflexivity | ].
  split; [reflexivity | ].
  apply (ask_again_payload_replaces_channel str_opaque
           (fst (localhost_session true)) (snd (localhost_session true))
           ping pong (Again "Resource temporarily unavailable")).
  - reflexivity.
  - apply localhost_session_ok.
  - reflexivity.
  - reflexivity.
Defined.

(** *** Error fields of no known shape *)

(** C5 as stated does not hold: with [raise_exceptions] off, an error field
    that is neither a string, a warning nor an exception does not make
    [ask] fail. *)
Lemma unrecognized_not_fatal_when_not_raising :
  ~ (forall py_str (self : BaseClient) (w : world) message m e,
       connected self = true -> session_ok (self, w) ->
       shape_of e = ShUnrecognized ->
       exists x,
         fst (ask py_str message (RecvObject (OResponse m e)) (self, w)) = Raised x).
Proof.
  intros H.
  destruct (H str_opaque (fst (localhost_session false))
              (snd (localhost_session false)) ping pong (OVal (VInt 5))
              eq_refl (localhost_session_ok false) eq_refl) as [x Hx].
  vm_compute in Hx. discriminate Hx.
Qed.

(** C5, amended.  On a connected session, a reply whose error field has no
    known shape makes [ask] raise [TypeError('Unknown Error Type: ...')]
    when [raise_exceptions] is set; when it is not, [ask] records the
    diagnostic, one [ERROR] record with the same text, and returns the
    message field.  Either way the client object and the sockets are as
    before and the request is on the wire once. *)
Theorem ask_unrecognized_gated py_str (self : BaseClient) (w : world) message m e :
  connected self = true -> session_ok (self, w) ->
  shape_of e = ShUnrecognized ->
  exists h,
    socket self = Some h /\
    ask py_str message (RecvObject (OResponse m e)) (self, w)
    = ((if raise_exceptions self
        then Raised (TypeError ("Unknown Error Type: " +:+ py_str e))
        else Returned m),
       (self,
        World (sockets w) (ncontexts w) (wire w ++ [(h, message)])
              (logs w
                 ++ [(DEBUG, "Response received.");
                     (DEBUG, "Response: " +:+ py_str (OResponse m e))]
                 ++ (if raise_exceptions self then []
                     else [(ERROR, "Unknown Error Type: " +:+ py_str e)]))
              (warned w))).
Proof.
  intros Hcon Hok Hsh. destruct (Hok Hcon) as (h & zs & Hs & Hl & Hc & Ha).
  simpl in Hs, Hl. pose proof (lookup_lt_Some _ _ _ Hl) as Hlt.
  exists h. split; [exact Hs | ].
  unfold ask, ask_body.
  destruct (raise_exceptions self) eqn:Hr;
    (destruct e as [[]|[c msg]|]; try destruct c;
     try (exfalso; clear - Hsh; compute in Hsh; discriminate);
     ask_run;
     rewrite list_insert_insert_eq, insert_same_socket by assumption;
     rewrite <- ?app_assoc; rewrite ?app_nil_r; reflexivity).
Qed.

Lemma ask_unrecognized_gated_witness :
  connected (fst (localhost_session false)) = true /\
  session_ok (localhost_session false) /\
  shape_of (OVal (VInt 5)) = ShUnrecognized /\
  exists h,
    socket (fst (localhost_session false)) = Some h /\
    ask str_opaque ping (RecvObject (OResponse pong (OVal (VInt 5))))
        (localhost_session false)
    = (Returned pong,
       (fst (localhost_session false),
        World (sockets (snd (localhost_session false)))
              (ncontexts (snd (localhost_session false)))
              (wire (snd (localhost_session false)) ++ [(h, ping)])
              (logs (snd (localhost_session false))
                 ++ [(DEBUG, "Response received.");
                     (DEBUG, "Response: "
                               +:+ str_opaque (OResponse pong (OVal (VInt 5))))]
                 ++ [(ERROR, "Unknown Error Type: " +:+ str_opaque (OVal (VInt 5)))])
              (warned (snd (localhost_session false))))).
Proof.
  split; [reflexivity | ].
  split; [apply localhost_session_ok | ].
  split; [reflexivity | ].
  apply (ask_unrecognized_gated str_opaque
           (fst (localhost_session false)) (snd (localhost_session false))
           ping pong (OVal (VInt 5))).
  - reflexivity.
  - apply localhost_session_ok.
  - reflexivity.
Defined.

(** *** Disconnecting *)

(** C10. A session built with [connect=False] has no socket: [disconnect]
    on it raises [AttributeError] and changes nothing.  Once [connect] has
    run, [disconnect] succeeds and leaves the session not connected. *)
Theorem disconnect_before_connect_fails host port timeout raising (w : world) :
  fst (init host port false timeout raising w) = Returned tt /\
  connected (fst (snd (init host port false timeout raising w))) = false /\
  socket (fst (snd (init host port false timeout raising w))) = None /\
  disconnect (snd (init host port false timeout raising w))
  = (Raised (AttributeError "'NoneType' object has no attribute 'close'"),
     snd (init host port false timeout raising w)) /\
  exists s',
    disconnect (snd (connect (snd (init host port false timeout raising w))))
    = (Returned tt, s') /\ connected (fst s') = false.
Proof.
  repeat split.
  unfold init. simpl. rewrite connect_run. simpl.
  unfold disconnect. run. rewrite lookup_snoc. simpl.
  eexists. split; reflexivity.
Qed.

(** *** The two ways through [ask] *)

(** On a connected session with a ready channel, [ask] goes one of two
    ways whatever the network delivers: the client object is left as it was
    and an exchange took place on its socket, or the channel was replaced as
    after a timeout. *)
Lemma ask_paths py_str (self : BaseClient) (w : world) message reply h zs :
  connected self = true ->
  socket self = Some h -> sockets w !! h = Some zs ->
  closed zs = false -> awaiting zs = false ->
  (exists r w',
     ask py_str message reply (self, w) = (r, (self, w')) /\
     exchanged h message w w') \/
  (exists aw lg,
     ask py_str message reply (self, w)
     = ((if raise_exceptions self
         then Raised (RuntimeError "Server did not reply before timeout.")
         else Returned PyNone),
        (MkClient true (Some (ncontexts w)) (Some (length (sockets w)))
                  (host self) (port self) (addr self)
                  (raise_exceptions self) (recv_timeout self),
         World (<[h := ZSocket (rcvtimeo zs) (endpoints zs) true aw]> (sockets w)
                  ++ [ZSocket (recv_timeout self) [addr self] false false])
               (S (ncontexts w)) (wire w ++ [(h, message)]) lg (warned w)))).
Proof.
  intros Hcon Hs Hl Hc Ha.
  pose proof (lookup_lt_Some _ _ _ Hl) as Hlt.
  destruct reply as [|o].
  - right. eexists. eexists.
    apply (ask_timeout_run py_str self w message h zs); assumption.
  - unfold ask, ask_body.
    destruct (raise_exceptions self) eqn:Hr;
      (destruct o as [v|x|m e];
       [ | | destruct e as [[]|[c msg]|]; try destruct c ];
       ask_run;
       rewrite ?list_insert_insert_eq;
       rewrite ?insert_same_socket by assumption;
       try solve [ left; eexists; eexists;
                   split; [reflexivity | unfold exchanged; simpl; auto ] ]).
    right. erewrite ask_on_timeout_run; [ | exact Hs | simpl; exact Hl ].
    simpl. rewrite Hr. eexists. eexists. reflexivity.
Qed.

(** X3.  [ask] on a connected session, whatever is received: the session stays
    connected, [host], [port], [addr], [raise_exceptions] and
    [recv_timeout] keep their values, the message goes on the wire exactly
    once, on the socket the session had, and the session ends on that socket
    or on a socket that did not exist before. *)
Theorem ask_frame py_str (self : BaseClient) (w : world) message reply :
  connected self = true -> session_ok (self, w) ->
  connected (fst (snd (ask py_str message reply (self, w)))) = true /\
  host (fst (snd (ask py_str message reply (self, w)))) = host self /\
  port (fst (snd (ask py_str message reply (self, w)))) = port self /\
  addr (fst (snd (ask py_str message reply (self, w)))) = addr self /\
  raise_exceptions (fst (snd (ask py_str message reply (self, w))))
    = raise_exceptions self /\
  recv_timeout (fst (snd (ask py_str message reply (self, w)))) = recv_timeout self /\
  exists h,
    socket self = Some h /\
    wire (snd (snd (ask py_str message reply (self, w)))) = wire w ++ [(h, message)] /\
    (socket (fst (snd (ask py_str message reply (self, w)))) = Some h \/
     socket (fst (snd (ask py_str message reply (self, w))))
       = Some (length (sockets w))).
Proof.
  intros Hcon Hok. destruct (Hok Hcon) as (h & zs & Hs & Hl & Hc & Ha).
  simpl in Hs, Hl.
  destruct (ask_paths py_str self w message reply h zs Hcon Hs Hl Hc Ha)
    as [(r & w' & Heq & (_ & _ & Hwire)) | (aw & lg & Heq)];
    rewrite Heq; simpl.
  - repeat split; auto. exists h. auto.
  - repeat split; auto. exists h. auto.
Qed.

Lemma ask_frame_witness :
  connected (fst (localhost_session true)) = true /\
  session_ok (localhost_session true) /\
  exists h,
    socket (fst (localhost_session true)) = Some h /\
    wire (snd (snd (ask str_opaque ping RecvAgain (localhost_session true))))
      = wire (snd (localhost_session true)) ++ [(h, ping)] /\
    (socket (fst (snd (ask str_opaque ping RecvAgain (localhost_session true))))
       = Some h \/
     socket (fst (snd (ask str_opaque ping RecvAgain (localhost_session true))))
       = Some (length (sockets (snd (localhost_session true))))).
Proof.
  split; [reflexivity | ].
  split; [apply localhost_session_ok | ].
  apply (ask_frame str_opaque (fst (localhost_session true))
           (snd (localhost_session true)) ping RecvAgain).
  - reflexivity.
  - apply localhost_session_ok.
Defined.

(** X2.  The invariant of a session holds after [__init__] and after [connect],
    and [ask], [disconnect] and [__enter__] keep it: whenever a session says
    it is connected, it has an open socket on which nothing is
    outstanding. *)
Theorem session_invariant :
  (forall host port connect_now timeout raising w,
     session_ok (snd (init host port connect_now timeout raising w))) /\
  (forall s, session_ok (snd (connect s))) /\
  (forall py_str message reply s,
     session_ok s -> session_ok (snd (ask py_str message reply s))) /\
  (forall s, session_ok s -> session_ok (snd (disconnect s))) /\
  (forall s, session_ok s -> session_ok (snd (enter s))).
Proof.
  split; [intros; apply init_ok | ].
  split; [intros s _; apply connect_ready | ].
  split; [intros; apply ask_ok; assumption | ].
  split; [intros; apply disconnect_ok; assumption | ].
  intros [self w] Hok. unfold enter. run.
  destruct (connected self) eqn:Hcon; simpl.
  - exact Hok.
  - intros _. apply connect_ready.
Qed.

(** *** [connect] *)



(** *** Replies that raise nothing *)

(** X4.  A reply without an error makes [ask] return the message as it came,
    whatever [raise_exceptions] is; the client object, the sockets and the
    warnings are as before, and the log got the two debug records. *)
Theorem ask_clean_reply py_str (self : BaseClient) (w : world) message m :
  connected self = true -> session_ok (self, w) ->
  exists h,
    socket self = Some h /\
    ask py_str message (RecvObject (OResponse m PyNone)) (self, w)
    = (Returned m,
       (self,
        World (sockets w) (ncontexts w) (wire w ++ [(h, message)])
              (logs w ++ [(DEBUG, "Response received.");
                          (DEBUG, "Response: " +:+ py_str (OResponse m PyNone))])
              (warned w))).
Proof.
  intros Hcon Hok. destruct (Hok Hcon) as (h & zs & Hs & Hl & Hc & Ha).
  simpl in Hs, Hl. pose proof (lookup_lt_Some _ _ _ Hl) as Hlt.
  exists h. split; [exact Hs | ].
  unfold ask, ask_body. ask_run.
  rewrite list_insert_insert_eq, insert_same_socket by assumption.
  rewrite <- app_assoc. reflexivity.
Qed.

Lemma ask_clean_reply_witness :
  connected (fst (localhost_session true)) = true /\
  session_ok (localhost_session true) /\
  exists h,
    socket (fst (localhost_session true)) = Some h /\
    ask str_opaque ping (RecvObject (OResponse pong PyNone)) (localhost_session true)
    = (Returned pong,
       (fst (localhost_session true),
        World (sockets (snd (localhost_session true)))
              (ncontexts (snd (localhost_session true)))
              (wire (snd (localhost_session true)) ++ [(h, ping)])
              (logs (snd (localhost_session true))
                 ++ [(DEBUG, "Response received.");
                     (DEBUG, "Response: " +:+ str_opaque (OResponse pong PyNone))])
              (warned (snd (localhost_session true))))).
Proof.
  split; [reflexivity | ].
  split; [apply localhost_session_ok | ].
  apply (ask_clean_reply str_opaque (fst (localhost_session true))
           (snd (localhost_session true)) ping pong).
  - reflexivity.
  - apply localhost_session_ok.
Defined.

(** X5.  A string or a warning in the error field never makes [ask] fail, with
    [raise_exceptions] set or not: the message is returned, the string is
    logged as one [ERROR] record, the warning is handed to [warnings.warn]
    once, and the client object and the sockets are as before. *)
Theorem ask_text_and_warning_return py_str (self : BaseClient) (w : world) message :
  connected self = true -> session_ok (self, w) ->
  exists h,
    socket self = Some h /\
    (forall m t,
       ask py_str message (RecvObject (OResponse m (OVal (VStr t)))) (self, w)
       = (Returned m,
          (self,
           World (sockets w) (ncontexts w) (wire w ++ [(h, message)])
                 (logs w
                    ++ [(DEBUG, "Response received.");
                        (DEBUG, "Response: "
                                  +:+ py_str (OResponse m (OVal (VStr t))));
                        (ERROR, py_str (OVal (VStr t)))])
                 (warned w)))) /\
    (forall m x,
       issubclass (exc_class x) ClsWarning = true ->
       ask py_str message (RecvObject (OResponse m (OExc x))) (self, w)
       = (Returned m,
          (self,
           World (sockets w) (ncontexts w) (wire w ++ [(h, message)])
                 (logs w
                    ++ [(DEBUG, "Response received.");
                        (DEBUG, "Response: " +:+ py_str (OResponse m (OExc x)))])
                 (warned w ++ [x])))).
Proof.
  intros Hcon Hok. destruct (Hok Hcon) as (h & zs & Hs & Hl & Hc & Ha).
  simpl in Hs, Hl. pose proof (lookup_lt_Some _ _ _ Hl) as Hlt.
  exists h. split; [exact Hs | ]. split.
  - intros m t. unfold ask, ask_body. ask_run.
    rewrite list_insert_insert_eq, insert_same_socket by assumption.
    rewrite <- !app_assoc. reflexivity.
  - intros m [c msg] Hw. unfold ask, ask_body.
    destruct c; try (compute in Hw; discriminate Hw);
      ask_run;
      rewrite list_insert_insert_eq, insert_same_socket by assumption;
      rewrite <- !app_assoc; reflexivity.
Qed.

Lemma ask_text_and_warning_return_witness :
  connected (fst (localhost_session true)) = true /\
  session_ok (localhost_session true) /\
  exists h,
    socket (fst (localhost_session true)) = Some h /\
    (forall m t,
       ask str_opaque ping (RecvObject (OResponse m (OVal (VStr t))))
           (localhost_session true)
       = (Returned m,
          (fst (localhost_session true),
           World (sockets (snd (localhost_session true)))
                 (ncontexts (snd (localhost_session true)))
                 (wire (snd (localhost_session true)) ++ [(h, ping)])
                 (logs (snd (localhost_session true))
                    ++ [(DEBUG, "Response received.");
                        (DEBUG, "Response: "
                                  +:+ str_opaque (OResponse m (OVal (VStr t))));
                        (ERROR, str_opaque (OVal (VStr t)))])
                 (warned (snd (localhost_session true)))))) /\
    (forall m x,
       issubclass (exc_class x) ClsWarning = true ->
       ask str_opaque ping (RecvObject (OResponse m (OExc x)))
           (localhost_session true)
       = (Returned m,
          (fst (localhost_session true),
           World (sockets (snd (localhost_session true)))
                 (ncontexts (snd (localhost_session true)))
                 (wire (snd (localhost_session true)) ++ [(h, ping)])
                 (logs (snd (localhost_session true))
                    ++ [(DEBUG, "Response received.");
                        (DEBUG, "Response: " +:+ str_opaque (OResponse m (OExc x)))])
                 (warned (snd (localhost_session true)) ++ [x])))).
Proof.
  split; [reflexivity | ].
  split; [apply localhost_session_ok | ].
  apply (ask_text_and_warning_return str_opaque (fst (localhost_session true))
           (snd (localhost_session true)) ping).
  - reflexivity.
  - apply localhost_session_ok.
Defined.

(** *** Replies that are not a [ServerResponse] *)

(** X6.  [return ret.message] is outside the test for [ServerResponse]: when the
    reply unpickles to plain data or to an exception object, [ask] raises
    [AttributeError], with [raise_exceptions] set or not.  The request was
    sent and the reply consumed, so the socket is ready again and is not
    replaced. *)
Theorem ask_foreign_reply py_str (self : BaseClient) (w : world) message o :
  connected self = true -> session_ok (self, w) ->
  isinstance_ServerResponse o = false ->
  exists h,
    socket self = Some h /\
    ask py_str message (RecvObject o) (self, w)
    = (Raised (AttributeError "object has no attribute 'message'"),
       (self,
        World (sockets w) (ncontexts w) (wire w ++ [(h, message)])
              (logs w ++ [(DEBUG, "Response received.");
                          (DEBUG, "Response: " +:+ py_str o)])
              (warned w))).
Proof.
  intros Hcon Hok Hno. destruct (Hok Hcon) as (h & zs & Hs & Hl & Hc & Ha).
  simpl in Hs, Hl. pose proof (lookup_lt_Some _ _ _ Hl) as Hlt.
  exists h. split; [exact Hs | ].
  unfold ask, ask_body.
  destruct o as [v|x|m e]; [ | | discriminate Hno ];
    ask_run;
    rewrite list_insert_insert_eq, insert_same_socket by assumption;
    rewrite <- app_assoc; reflexivity.
Qed.

Lemma ask_foreign_reply_witness :
  connected (fst (localhost_session false)) = true /\
  session_ok (localhost_session false) /\
  isinstance_ServerResponse pong = false /\
  exists h,
    socket (fst (localhost_session false)) = Some h /\
    ask str_opaque ping (RecvObject pong) (localhost_session false)
    = (Raised (AttributeError "object has no attribute 'message'"),
       (fst (localhost_session false),
        World (sockets (snd (localhost_session false)))
              (ncontexts (snd (localhost_session false)))
              (wire (snd (localhost_session false)) ++ [(h, ping)])
              (logs (snd (localhost_session false))
                 ++ [(DEBUG, "Response received.");
                     (DEBUG, "Response: " +:+ str_opaque pong)])
              (warned (snd (localhost_session false))))).
Proof.
  split; [reflexivity | ].
  split; [apply localhost_session_ok | ].
  split; [reflexivity | ].
  apply (ask_foreign_reply str_opaque (fst (localhost_session false))
           (snd (localhost_session false)) ping pong).
  - reflexivity.
  - apply localhost_session_ok.
  - reflexivity.
Defined.

(** *** [disconnect] *)

Lemma disconnect_run (self : BaseClient) (w : world) h zs :
  socket self = Some h -> sockets w !! h = Some zs ->
  disconnect (self, w)
  = (Returned tt,
     (set_connected false self,
      World (<[h := ZSocket (rcvtimeo zs) (endpoints zs) true (awaiting zs)]> (sockets w))
            (ncontexts w) (wire w) (logs w) (warned w))).
Proof.
  intros Hs Hl. unfold disconnect. run. rewrite Hs. simpl. rewrite Hl.
  rewrite andb_false_r. reflexivity.
Qed.

(** X9.  [disconnect] on a connected session succeeds: it closes the socket of
    the session and no other, leaves the wire alone, and marks the session
    not connected, so that every later [ask] is refused before anything is
    sent. *)
Theorem disconnect_closes_the_channel py_str (self : BaseClient) (w : world) :
  connected self = true -> session_ok (self, w) ->
  exists h zs,
    socket self = Some h /\ sockets w !! h = Some zs /\
    fst (disconnect (self, w)) = Returned tt /\
    connected (fst (snd (disconnect (self, w)))) = false /\
    sockets (snd (snd (disconnect (self, w)))) !! h
      = Some (ZSocket (rcvtimeo zs) (endpoints zs) true (awaiting zs)) /\
    (forall h', h' <> h ->
       sockets (snd (snd (disconnect (self, w)))) !! h' = sockets w !! h') /\
    wire (snd (snd (disconnect (self, w)))) = wire w /\
    forall message reply,
      ask py_str message reply (snd (disconnect (self, w)))
      = (Raised (RuntimeError "No connection yet."), snd (disconnect (self, w))).
Proof.
  intros Hcon Hok. destruct (Hok Hcon) as (h & zs & Hs & Hl & Hc & Ha).
  simpl in Hs, Hl. pose proof (lookup_lt_Some _ _ _ Hl) as Hlt.
  exists h, zs. rewrite (disconnect_run self w h zs Hs Hl). simpl.
  repeat split; auto.
  - apply list_lookup_insert_eq. exact Hlt.
  - intros h' Hne. apply list_lookup_insert_ne. auto.
Qed.

Lemma disconnect_closes_the_channel_witness :
  connected (fst (localhost_session true)) = true /\
  session_ok (localhost_session true) /\
  exists h zs,
    socket (fst (localhost_session true)) = Some h /\
    sockets (snd (localhost_session true)) !! h = Some zs /\
    fst (disconnect (localhost_session true)) = Returned tt /\
    connected (fst (snd (disconnect (localhost_session true)))) = false /\
    sockets (snd (snd (disconnect (localhost_session true)))) !! h
      = Some (ZSocket (rcvtimeo zs) (endpoints zs) true (awaiting zs)) /\
    (forall h', h' <> h ->
       sockets (snd (snd (disconnect (localhost_session true)))) !! h'
       = sockets (snd (localhost_session true)) !! h') /\
    wire (snd (snd (disconnect (localhost_session true))))
      = wire (snd (localhost_session true)) /\
    forall message reply,
      ask str_opaque message reply (snd (disconnect (localhost_session true)))
      = (Raised (RuntimeError "No connection yet."),
         snd (disconnect (localhost_session true))).
Proof.
  split; [reflexivity | ].
  split; [apply localhost_session_ok | ].
  apply (disconnect_closes_the_channel str_opaque (fst (localhost_session true))
           (snd (localhost_session true))).
  - reflexivity.
  - apply localhost_session_ok.
Defined.

(** *** [sendRequest] *)

Lemma enter_connected (self : BaseClient) (w : world) :
  connected self = true -> enter (self, w) = (Returned tt, (self, w)).
Proof. intros H. unfold enter. run. rewrite H. reflexivity. Qed.

Lemma lookup_snoc_at {A} (l : list A) (x : A) n :
  length l = n -> (l ++ [x]) !! n = Some x.
Proof. intros <-. apply lookup_snoc. Qed.

Lemma with_session_run {A} (body : M St A) (self : BaseClient) (w : world) :
  connected self = true ->
  (enter ;; try_finally body exit) (self, w)
  = match disconnect (snd (body (self, w))) with
    | (Returned _, s'') => (fst (body (self, w)), s'')
    | (Raised e, s'') => (Raised e, s'')
    end.
Proof.
  intros Hcon. unfold bind. rewrite (enter_connected self w Hcon).
  unfold try_finally, exit. destruct (body (self, w)) as [r s']. reflexivity.
Qed.

Lemma insert_snoc_at {A} (l : list A) (x y : A) n :
  length l = n -> <[n := y]> (l ++ [x]) = l ++ [y].
Proof. intros <-. apply insert_snoc. Qed.

(** A [with] block around one [ask], entered on a connected session with a
    ready channel. *)
Lemma with_session_cleans py_str (self : BaseClient) (w : world) message reply h zs :
  connected self = true ->
  socket self = Some h -> sockets w !! h = Some zs ->
  closed zs = false -> awaiting zs = false ->
  exists self' w',
    (enter ;; try_finally (ask py_str message reply) exit) (self, w)
    = (fst (ask py_str message reply (self, w)), (self', w')) /\
    connected self' = false /\
    wire w' = wire w ++ [(h, message)] /\
    (exists zs', sockets w' !! h = Some zs' /\ closed zs' = true) /\
    (forall h' zs', sockets w' !! h' = Some zs' ->
                    (length (sockets w) <= h')%nat -> closed zs' = true) /\
    (forall h' zs', h' <> h -> sockets w !! h' = Some zs' ->
                    sockets w' !! h' = Some zs').
Proof.
  intros Hcon Hs Hl Hc Ha.
  pose proof (lookup_lt_Some _ _ _ Hl) as Hlt.
  rewrite (with_session_run (ask py_str message reply) self w Hcon).
  destruct (ask_paths py_str self w message reply h zs Hcon Hs Hl Hc Ha)
    as [(r & w1 & Heq & (Hsock & _ & Hwire)) | (aw & lg & Heq)];
    rewrite Heq; cbn [fst snd].
  - assert (Hl1 : sockets w1 !! h = Some zs) by (rewrite Hsock; exact Hl).
    rewrite (disconnect_run self w1 h zs Hs Hl1).
    eexists. eexists. split; [reflexivity | ].
    cbn [connected set_connected wire sockets]. rewrite Hsock.
    split; [reflexivity | ]. split; [exact Hwire | ]. split; [ | split ].
    + eexists. split; [apply list_lookup_insert_eq; exact Hlt | reflexivity].
    + intros h' zs' Hlk Hge. apply lookup_lt_Some in Hlk.
      rewrite length_insert in Hlk. lia.
    + intros h' zs' Hne Hlk. rewrite list_lookup_insert_ne by auto. exact Hlk.
  - erewrite disconnect_run;
      [ | reflexivity
        | cbn [sockets]; apply lookup_snoc_at; apply length_insert ].
    eexists. eexists. split; [reflexivity | ].
    cbn [connected set_connected wire sockets rcvtimeo endpoints awaiting].
    rewrite insert_snoc_at by (apply length_insert).
    split; [reflexivity | ]. split; [reflexivity | ]. split; [ | split ].
    + exists (ZSocket (rcvtimeo zs) (endpoints zs) true aw).
      split; [ | reflexivity ].
      rewrite lookup_app_l by (rewrite length_insert; exact Hlt).
      apply list_lookup_insert_eq. exact Hlt.
    + intros h' zs' Hlk Hge.
      destruct (decide (h' = length (sockets w))) as [-> | Hne].
      * rewrite lookup_snoc_at in Hlk by (apply length_insert).
        injection Hlk as <-. reflexivity.
      * apply lookup_lt_Some in Hlk.
        rewrite length_app, length_insert in Hlk. simpl in Hlk. lia.
    + intros h' zs' Hne Hlk.
      rewrite lookup_app_l
        by (rewrite length_insert; eapply lookup_lt_Some; exact Hlk).
      rewrite list_lookup_insert_ne by auto. exact Hlk.
Qed.

(** X10.  A [with] block around one [ask], entered on a session that is
    already connected: [__enter__] does not connect again, the block gives
    what the [ask] gives, a value or an exception, and [__exit__] runs on
    every way out.  The session ends not connected, the socket it was on is
    closed, and so is the socket made after a timeout; the other sockets are
    untouched and the message went on the wire exactly once. *)
Theorem with_block_cleans_up py_str (self : BaseClient) (w : world) message reply :
  connected self = true -> session_ok (self, w) ->
  exists h self' w',
    socket self = Some h /\
    (enter ;; try_finally (ask py_str message reply) exit) (self, w)
    = (fst (ask py_str message reply (self, w)), (self', w')) /\
    connected self' = false /\
    wire w' = wire w ++ [(h, message)] /\
    (exists zs', sockets w' !! h = Some zs' /\ closed zs' = true) /\
    (forall h' zs', sockets w' !! h' = Some zs' ->
                    (length (sockets w) <= h')%nat -> closed zs' = true) /\
    (forall h' zs', h' <> h -> sockets w !! h' = Some zs' ->
                    sockets w' !! h' = Some zs').
Proof.
  intros Hcon Hok. destruct (Hok Hcon) as (h & zs & Hs & Hl & Hc & Ha).
  simpl in Hs, Hl.
  destruct (with_session_cleans py_str self w message reply h zs Hcon Hs Hl Hc Ha)
    as (self' & w' & Heq & Hrest).
  exists h, self', w'. split; [exact Hs | ]. split; [exact Heq | exact Hrest].
Qed.

Lemma with_block_cleans_up_witness :
  connected (fst (localhost_session true)) = true /\
  session_ok (localhost_session true) /\
  exists h self' w',
    socket (fst (localhost_session true)) = Some h /\
    (enter ;; try_finally (ask str_opaque ping RecvAgain) exit) (localhost_session true)
    = (fst (ask str_opaque ping RecvAgain (localhost_session true)), (self', w')) /\
    connected self' = false /\
    wire w' = wire (snd (localhost_session true)) ++ [(h, ping)] /\
    (exists zs', sockets w' !! h = Some zs' /\ closed zs' = true) /\
    (forall h' zs', sockets w' !! h' = Some zs' ->
                    (length (sockets (snd (localhost_session true))) <= h')%nat ->
                    closed zs' = true) /\
    (forall h' zs', h' <> h ->
                    sockets (snd (localhost_session true)) !! h' = Some zs' ->
                    sockets w' !! h' = Some zs').
Proof.
  split; [reflexivity | ].
  split; [apply localhost_session_ok | ].
  apply (with_block_cleans_up str_opaque (fst (localhost_session true))
           (snd (localhost_session true)) ping RecvAgain).
  - reflexivity.
  - apply localhost_session_ok.
Defined.

(** *** Server exceptions that are raised *)

(** X7.  With [raise_exceptions] set, an exception in the error field that is
    neither a warning nor an instance of [zmq.error.Again] is raised to the
    caller as it came; the session stays as it was, on the same socket,
    which is ready for the next request. *)
Theorem ask_server_exception_raised py_str (self : BaseClient) (w : world)
    message m x :
  connected self = true -> session_ok (self, w) ->
  raise_exceptions self = true ->
  issubclass (exc_class x) ClsWarning = false ->
  issubclass (exc_class x) ClsAgain = false ->
  exists h w',
    socket self = Some h /\
    ask py_str message (RecvObject (OResponse m (OExc x))) (self, w)
    = (Raised x, (self, w')) /\
    sockets w' = sockets w /\ ncontexts w' = ncontexts w /\
    wire w' = wire w ++ [(h, message)] /\
    ready (self, w').
Proof.
  intros Hcon Hok Hr Hw Hag. destruct (Hok Hcon) as (h & zs & Hs & Hl & Hc & Ha).
  simpl in Hs, Hl.
  assert (Hsh : shape_of (OExc x) = ShException).
  { unfold shape_of. simpl. rewrite Hw.
    destruct x as [c msg]. destruct c; reflexivity. }
  destruct (ask_reply_raises py_str self w message m x h zs
              Hcon Hs Hl Hc Ha Hr Hsh Hag) as (w' & Heq & Hsock & Hctx & Hwire).
  exists h, w'. repeat split; auto.
  exists h, zs. simpl. rewrite Hsock. auto.
Qed.

Lemma ask_server_exception_raised_witness :
  connected (fst (localhost_session true)) = true /\
  session_ok (localhost_session true) /\
  exists h w',
    socket (fst (localhost_session true)) = Some h /\
    ask str_opaque ping
        (RecvObject (OResponse pong (OExc (PyExc ClsValueError "bad value"))))
        (localhost_session true)
    = (Raised (PyExc ClsValueError "bad value"), (fst (localhost_session true), w')) /\
    sockets w' = sockets (snd (localhost_session true)) /\
    ncontexts w' = ncontexts (snd (localhost_session true)) /\
    wire w' = wire (snd (localhost_session true)) ++ [(h, ping)] /\
    ready (fst (localhost_session true), w').
Proof.
  split; [reflexivity | ].
  split; [apply localhost_session_ok | ].
  apply (ask_server_exception_raised str_opaque (fst (localhost_session true))
           (snd (localhost_session true)) ping pong (PyExc ClsValueError "bad value")).
  - reflexivity.
  - apply localhost_session_ok.
  - reflexivity.
  - reflexivity.
  - reflexivity.
Defined.

(** *** After a timeout *)

(** X8.  After an [ask] that timed out, the next [ask] goes out on the socket
    that replaced the old one, and a reply without an error is returned as
    usual: each of the two messages is on the wire once, the first on the
    old socket, the second on the new one. *)
Theorem ask_after_timeout_succeeds py_str (self : BaseClient) (w : world)
    first second m :
  connected self = true -> session_ok (self, w) ->
  exists h,
    socket self = Some h /\
    fst (ask py_str second (RecvObject (OResponse m PyNone))
           (snd (ask py_str first RecvAgain (self, w))))
    = Returned m /\
    wire (snd (snd (ask py_str second (RecvObject (OResponse m PyNone))
                      (snd (ask py_str first RecvAgain (self, w))))))
    = wire w ++ [(h, first); (length (sockets w), second)] /\
    h <> length (sockets w).
Proof.
  intros Hcon Hok. destruct (Hok Hcon) as (h & zs & Hs & Hl & Hc & Ha).
  simpl in Hs, Hl. pose proof (lookup_lt_Some _ _ _ Hl) as Hlt.
  exists h. split; [exact Hs | ].
  rewrite (ask_timeout_run py_str self w first h zs Hcon Hs Hl Hc Ha).
  cbn [snd].
  match goal with
  | |- context [ask py_str second _ (?a, ?b)] => set (self1 := a); set (w1 := b)
  end.
  assert (Hok1 : session_ok (self1, w1)).
  { intros _. exists (length (sockets w)),
      (ZSocket (recv_timeout self) [addr self] false false).
    subst self1 w1. cbn [fst snd socket sockets].
    split; [reflexivity | ]. split; [ | auto ].
    apply lookup_snoc_at. apply length_insert. }
  destruct (ask_clean_reply py_str self1 w1 second m eq_refl Hok1)
    as (h1 & Hs1 & Heq).
  subst self1. cbn [socket] in Hs1. injection Hs1 as <-.
  rewrite Heq. cbn [fst snd wire]. subst w1. cbn [wire].
  rewrite <- app_assoc. split; [reflexivity | ]. split; [reflexivity | lia].
Qed.

Lemma ask_after_timeout_succeeds_witness :
  connected (fst (localhost_session true)) = true /\
  session_ok (localhost_session true) /\
  exists h,
    socket (fst (localhost_session true)) = Some h /\
    fst (ask str_opaque ping (RecvObject (OResponse pong PyNone))
           (snd (ask str_opaque ping RecvAgain (localhost_session true))))
    = Returned pong /\
    wire (snd (snd (ask str_opaque ping (RecvObject (OResponse pong PyNone))
                      (snd (ask str_opaque ping RecvAgain (localhost_session true))))))
    = wire (snd (localhost_session true))
      ++ [(h, ping); (length (sockets (snd (localhost_session true))), ping)] /\
    h <> length (sockets (snd (localhost_session true))).
Proof.
  split; [reflexivity | ].
  split; [apply localhost_session_ok | ].
  apply (ask_after_timeout_succeeds str_opaque (fst (localhost_session true))
           (snd (localhost_session true)) ping ping pong).
  - reflexivity.
  - apply localhost_session_ok.
Defined.

End ClientFacts.

(** * Properties of the configuration splitter *)

Module ConfigFacts.
Import Config.

(** ** Dictionaries *)

Lemma dict_get_set_eq k v (d : pydict) : dict_get k (dict_set k v d) = Some v.
Proof.
  induction d as [|[k' v'] d IH]; simpl.
  - rewrite String.eqb_refl. reflexivity.
  - destruct (String.eqb k k') eqn:E; simpl; rewrite E; auto.
Qed.

Lemma dict_get_set_ne k k' v (d : pydict) :
  k <> k' -> dict_get k (dict_set k' v d) = dict_get k d.
Proof.
  intros Hne. induction d as [|[k2 v2] d IH]; simpl.
  - apply String.eqb_neq in Hne. rewrite Hne. reflexivity.
  - destruct (String.eqb k' k2) eqn:E; simpl.
    + apply String.eqb_eq in E. subst k2.
      apply String.eqb_neq in Hne. rewrite Hne. reflexivity.
    + destruct (String.eqb k k2); auto.
Qed.

Lemma dict_get_del_ne k k' (d : pydict) :
  k <> k' -> dict_get k (dict_del k' d) = dict_get k d.
Proof.
  intros Hne. induction d as [|[k2 v2] d IH]; simpl; [reflexivity | ].
  destruct (String.eqb k' k2) eqn:E; simpl.
  - apply String.eqb_eq in E. subst k2.
    apply String.eqb_neq in Hne. rewrite Hne. reflexivity.
  - destruct (String.eqb k k2); auto.
Qed.

Lemma dict_get_absent k (d : pydict) :
  ~ In k (map fst d) -> dict_get k d = None.
Proof.
  induction d as [|[k' v'] d IH]; simpl; [reflexivity | ].
  intros Hn. destruct (String.eqb k k') eqn:E.
  - apply String.eqb_eq in E. subst. exfalso. apply Hn. left. reflexivity.
  - apply IH. intros Hin. apply Hn. right. exact Hin.
Qed.

Lemma dict_get_In k v (d : pydict) :
  dict_get k d = Some v -> In (k, v) d.
Proof.
  induction d as [|[k' v'] d IH]; simpl; [discriminate | ].
  destruct (String.eqb k k') eqn:E.
  - apply String.eqb_eq in E. subst. intros [= ->]. left. reflexivity.
  - intros H. right. apply IH. exact H.
Qed.

Lemma dict_get_wf_In k v (d : pydict) :
  dict_wf d -> In (k, v) d -> dict_get k d = Some v.
Proof.
  unfold dict_wf. induction d as [|[k' v'] d IH]; simpl; [intros _ [] | ].
  intros Hnd Hin. apply List.NoDup_cons_iff in Hnd as [Hnotin Hnd].
  destruct Hin as [Heq | Hin].
  - injection Heq as -> ->. rewrite String.eqb_refl. reflexivity.
  - destruct (String.eqb k k') eqn:E.
    + apply String.eqb_eq in E. subst k'. exfalso. apply Hnotin.
      apply (in_map fst) in Hin. exact Hin.
    + apply IH; assumption.
Qed.

Lemma dict_del_keys k k' (d : pydict) :
  In k (map fst (dict_del k' d)) -> In k (map fst d).
Proof.
  induction d as [|[k2 v2] d IH]; simpl; [auto | ].
  destruct (String.eqb k' k2); simpl; intuition.
Qed.

Lemma dict_del_wf k (d : pydict) : dict_wf d -> dict_wf (dict_del k d).
Proof.
  unfold dict_wf. induction d as [|[k2 v2] d IH]; simpl; [auto | ].
  intros Hnd. apply List.NoDup_cons_iff in Hnd as [Hnotin Hnd].
  destruct (String.eqb k k2); simpl; [exact Hnd | ].
  apply List.NoDup_cons_iff; split; [ | apply IH; exact Hnd ].
  intros Hin. apply Hnotin. eapply dict_del_keys. exact Hin.
Qed.

Lemma dict_get_del_eq k (d : pydict) :
  dict_wf d -> dict_get k (dict_del k d) = None.
Proof.
  unfold dict_wf. induction d as [|[k2 v2] d IH]; simpl; [reflexivity | ].
  intros Hnd. apply List.NoDup_cons_iff in Hnd as [Hnotin Hnd].
  destruct (String.eqb k k2) eqn:E; simpl.
  - apply String.eqb_eq in E. subst k2. apply dict_get_absent. exact Hnotin.
  - rewrite E. apply IH. exact Hnd.
Qed.


(** ** One instrument *)

Lemma serverFields_run (cfg : pydict) :
  serverFields SERVERFIELDS (VDict cfg) []
  = match dict_get "initialize" cfg with
    | Some VNone => Raised (cannot_be_None "initialize")
    | Some v => Returned (VDict (dict_del "initialize" cfg), [("initialize", v)])
    | None => Returned (VDict cfg, [("initialize", VBool true)])
    end.
Proof.
  simpl. unfold dict_contains.
  destruct (dict_get "initialize" cfg) as [[]|]; reflexivity.
Qed.

Lemma guiField_absent (cfg : pydict) :
  dict_get "gui" cfg = None ->
  guiField (VDict cfg) = Returned (VDict cfg, VDict GUIFIELD).
Proof.
  intros H. unfold guiField. simpl. unfold dict_contains. rewrite H. reflexivity.
Qed.

Lemma guiField_null (cfg : pydict) :
  dict_get "gui" cfg = Some VNone ->
  guiField (VDict cfg) = Raised (cannot_be_None "gui").
Proof.
  intros H. unfold guiField. simpl. unfold dict_contains. rewrite H. simpl.
  rewrite ?H. reflexivity.
Qed.

Lemma guiField_dict (cfg g : pydict) :
  dict_get "gui" cfg = Some (VDict g) ->
  guiField (VDict cfg)
  = Returned
      (VDict (dict_del "gui" cfg),
       VDict match dict_get "type" g with
             | Some t =>
                 if eq_str t "generic" || eq_str t "Generic"
                 then dict_set "type" (VStr default_gui_type) g
                 else g
             | None => dict_set "type" (VStr default_gui_type) g
             end).
Proof.
  intros H. unfold guiField. simpl. unfold dict_contains. rewrite H. simpl.
  rewrite ?H. simpl. unfold dict_contains.
  destruct (dict_get "type" g) as [t|]; simpl; [ | reflexivity ].
  destruct (eq_str t "generic"); simpl; [reflexivity | ].
  destruct (eq_str t "Generic"); reflexivity.
Qed.

(** ** The loop over the instruments *)

Lemma splitInstruments_frame (items : pydict) (st0 st : locals) name :
  splitInstruments items st0 = Returned st ->
  ~ In name (map fst items) ->
  dict_get name (instruments st) = dict_get name (instruments st0) /\
  dict_get name (serverConfig st) = dict_get name (serverConfig st0) /\
  dict_get name (guiConfig st) = dict_get name (guiConfig st0) /\
  dict_get name (fullConfig st) = dict_get name (fullConfig st0).
Proof.
  revert st0. induction items as [|[n c] items IH]; intros st0 Hrun Hnotin.
  - injection Hrun as <-. auto.
  - simpl in Hrun. destruct (splitInstrument c) as [i|e]; simpl in Hrun;
      [ | discriminate ].
    assert (Hne : name <> n) by (intros ->; apply Hnotin; left; reflexivity).
    apply IH in Hrun; [ | intros Hin; apply Hnotin; right; exact Hin ].
    simpl in Hrun. rewrite !(dict_get_set_ne name n) in Hrun by exact Hne.
    exact Hrun.
Qed.

Lemma splitInstruments_spec (items : pydict) (st0 st : locals) :
  dict_wf items ->
  splitInstruments items st0 = Returned st ->
  forall name cfg, In (name, cfg) items ->
  exists i,
    splitInstrument cfg = Returned i /\
    dict_get name (instruments st) = Some (stationPart i) /\
    dict_get name (serverConfig st) = Some (VDict (serverPart i)) /\
    dict_get name (guiConfig st) = Some (guiPart i) /\
    dict_get name (fullConfig st) = Some (VDict (fullPart i)).
Proof.
  unfold dict_wf. revert st0.
  induction items as [|[n c] items IH]; intros st0 Hnd Hrun name cfg Hin.
  - destruct Hin.
  - simpl in Hnd. apply List.NoDup_cons_iff in Hnd as [Hnotin Hnd].
    simpl in Hrun. destruct (splitInstrument c) as [i|e] eqn:Hi; simpl in Hrun;
      [ | discriminate ].
    destruct Hin as [Heq | Hin].
    + injection Heq as -> ->. exists i. split; [exact Hi | ].
      destruct (splitInstruments_frame _ _ _ name Hrun Hnotin)
        as (H1 & H2 & H3 & H4).
      simpl in H1, H2, H3, H4. rewrite dict_get_set_eq in H1, H2, H3, H4. auto.
    + eapply IH; eassumption.
Qed.

Lemma splitInstruments_first (pre post : pydict) name cfg e (st0 : locals) :
  List.Forall splits pre ->
  splitInstrument cfg = Raised e ->
  splitInstruments (pre ++ (name, cfg) :: post) st0 = Raised e.
Proof.
  revert st0. induction pre as [|[n c] pre IH]; intros st0 Hpre Hfail; simpl.
  - rewrite Hfail. reflexivity.
  - apply List.Forall_cons_iff in Hpre as [[i Hi] Hpre]. simpl in Hi.
    rewrite Hi. simpl. apply IH; assumption.
Qed.

Lemma splitInstruments_raises (items : pydict) name cfg e (st0 : locals) :
  In (name, cfg) items ->
  splitInstrument cfg = Raised e ->
  exists e', splitInstruments items st0 = Raised e'.
Proof.
  revert st0. induction items as [|[n c] items IH]; intros st0 Hin Hfail.
  - destruct Hin.
  - simpl. destruct Hin as [Heq | Hin].
    + injection Heq as -> ->. rewrite Hfail. eexists. reflexivity.
    + destruct (splitInstrument c) as [i|e0]; simpl.
      * eapply IH; eassumption.
      * eexists. reflexivity.
Qed.

Lemma splitInstruments_returns (items : pydict) (st0 : locals) :
  List.Forall splits items ->
  exists st, splitInstruments items st0 = Returned st.
Proof.
  revert st0. induction items as [|[n c] items IH]; intros st0 Hall; simpl.
  - eexists. reflexivity.
  - apply List.Forall_cons_iff in Hall as [[i Hi] Hall]. simpl in Hi.
    rewrite Hi. simpl. apply IH. exact Hall.
Qed.

(** ** The whole of [loadConfig] *)

Lemma splitConfig_run (top items : pydict) :
  dict_get "instruments" top = Some (VDict items) ->
  splitConfig (VDict top) = splitInstruments items (Locals items [] [] []).
Proof.
  intros H. unfold splitConfig. simpl. rewrite H. reflexivity.
Qed.

Lemma loadConfig_run (top items : pydict) :
  dict_get "instruments" top = Some (VDict items) ->
  loadConfig (VDict top)
  = match splitInstruments items (Locals items [] [] []) with
    | Returned st =>
        Returned (Loaded (VDict (dict_set "instruments" (VDict (instruments st)) top))
                         (serverConfig st) (fullConfig st))
    | Raised e => Raised e
    end.
Proof.
  intros H. unfold loadConfig. rewrite (splitConfig_run top items H).
  destruct (splitInstruments items _); reflexivity.
Qed.

Lemma splitInstrument_returned (cfg : pyval) (i : instrument) :
  splitInstrument cfg = Returned i ->
  exists c1 rest,
    serverFields SERVERFIELDS cfg [] = Returned (c1, serverPart i) /\
    guiField c1 = Returned (VDict rest, guiPart i) /\
    stationPart i = VDict rest /\
    fullPart i = spec_merge [("gui", guiPart i)] rest (serverPart i).
Proof.
  unfold splitInstrument. intros H.
  destruct (serverFields SERVERFIELDS cfg []) as [[c1 srv]|e] eqn:E1;
    simpl in H; [ | discriminate ].
  destruct (guiField c1) as [[c2 gui]|e] eqn:E2; simpl in H; [ | discriminate ].
  destruct c2 as [| | | | |rest]; simpl in H; try discriminate.
  injection H as <-. simpl. exists c1, rest. rewrite E2. repeat split; reflexivity.
Qed.

Lemma splitInstrument_null_field (cfg : pydict) :
  dict_get "initialize" cfg = Some VNone ->
  splitInstrument (VDict cfg) = Raised (cannot_be_None "initialize").
Proof.
  intros H. unfold splitInstrument. rewrite serverFields_run, H. reflexivity.
Qed.

(** What is left of the settings after the server fields were popped. *)
Lemma serverFields_keeps_gui (cfg : pydict) c1 srv :
  serverFields SERVERFIELDS (VDict cfg) [] = Returned (c1, srv) ->
  exists cfg1,
    c1 = VDict cfg1 /\ dict_get "gui" cfg1 = dict_get "gui" cfg /\
    (dict_wf cfg -> dict_wf cfg1) /\
    srv = [("initialize",
            match dict_get "initialize" cfg with Some v => v | None => VBool true end)] /\
    dict_get "initialize" cfg <> Some VNone.
Proof.
  rewrite serverFields_run.
  destruct (dict_get "initialize" cfg) as [v|] eqn:E.
  - destruct v; intros H; try discriminate H; injection H as <- <-;
      (eexists; split; [reflexivity | ];
       split; [apply dict_get_del_ne; discriminate | ];
       split; [apply dict_del_wf | ];
       split; [reflexivity | discriminate ]).
  - intros H. injection H as <- <-. eexists. split; [reflexivity | ].
    repeat split; auto; discriminate.
Qed.

Lemma serverFields_total (cfg : pydict) :
  dict_get "initialize" cfg <> Some VNone ->
  exists cfg1,
    serverFields SERVERFIELDS (VDict cfg) []
    = Returned (VDict cfg1,
                [("initialize",
                  match dict_get "initialize" cfg with
                  | Some v => v
                  | None => VBool true
                  end)]) /\
    dict_get "gui" cfg1 = dict_get "gui" cfg.
Proof.
  intros Hnn. rewrite serverFields_run.
  destruct (dict_get "initialize" cfg) as [v|] eqn:E.
  - destruct v; try (exfalso; apply Hnn; reflexivity);
      (eexists; split; [reflexivity | apply dict_get_del_ne; discriminate ]).
  - eexists. split; reflexivity.
Qed.

(** X21.  The loop over the server fields for any table of fields and defaults:
    when none of the fields is null in the settings, it returns, every field
    of the table gets the value given or else its default, the entries of
    [srv] under other keys stay, and so do the settings under other keys. *)
Lemma serverFields_any (fields : pydict) :
  dict_wf fields ->
  forall (cfg srv : pydict),
    (forall f, In f (map fst fields) -> dict_get f cfg <> Some VNone) ->
    exists cfg' srv',
      serverFields fields (VDict cfg) srv = Returned (VDict cfg', srv') /\
      (forall k,
         dict_get k srv'
         = match dict_get k fields with
           | Some d => Some (match dict_get k cfg with Some v => v | None => d end)
           | None => dict_get k srv
           end) /\
      (forall k, ~ In k (map fst fields) -> dict_get k cfg' = dict_get k cfg).
Proof.
  unfold dict_wf.
  induction fields as [|[f d] fields IH]; intros Hnd cfg srv Hnn.
  - exists cfg, srv. simpl. auto.
  - simpl in Hnd. apply List.NoDup_cons_iff in Hnd as [Hnotin Hnd].
    assert (Hf : dict_get f cfg <> Some VNone) by (apply Hnn; left; reflexivity).
    assert (Hrest : forall cfg1,
              (forall k, k <> f -> dict_get k cfg1 = dict_get k cfg) ->
              forall f', In f' (map fst fields) -> dict_get f' cfg1 <> Some VNone).
    { intros cfg1 Hsame f' Hin. rewrite Hsame.
      - apply Hnn. right. exact Hin.
      - intros ->. exact (Hnotin Hin). }
    assert (Hstep : forall cfg1 v,
              (forall k, k <> f -> dict_get k cfg1 = dict_get k cfg) ->
              v = match dict_get f cfg with Some v => v | None => d end ->
              exists cfg' srv',
                serverFields fields (VDict cfg1) (dict_set f v srv)
                = Returned (VDict cfg', srv') /\
                (forall k,
                   dict_get k srv'
                   = match (if String.eqb k f then Some d else dict_get k fields) with
                     | Some d0 =>
                         Some (match dict_get k cfg with Some v => v | None => d0 end)
                     | None => dict_get k srv
                     end) /\
                (forall k, ~ (f = k \/ In k (map fst fields)) ->
                           dict_get k cfg' = dict_get k cfg)).
    { intros cfg1 v Hsame Hv.
      destruct (IH Hnd cfg1 (dict_set f v srv) (Hrest cfg1 Hsame))
        as (cfg' & srv' & Hrun & Hsrv & Hcfg).
      exists cfg', srv'. split; [exact Hrun | ]. split.
      - intros k. rewrite Hsrv. destruct (String.eqb k f) eqn:E.
        + apply String.eqb_eq in E. subst k.
          rewrite (dict_get_absent f fields Hnotin), dict_get_set_eq, Hv.
          reflexivity.
        + apply String.eqb_neq in E.
          rewrite (Hsame k E), (dict_get_set_ne k f v srv E). reflexivity.
      - intros k Hk. rewrite Hcfg by (intros Hin; apply Hk; right; exact Hin).
        apply Hsame. intros ->. apply Hk. left. reflexivity. }
    simpl. unfold dict_contains.
    destruct (dict_get f cfg) as [v|] eqn:E; simpl.
    + assert (Hdel : forall k, k <> f -> dict_get k (dict_del f cfg) = dict_get k cfg)
        by (intros k Hk; apply dict_get_del_ne; exact Hk).
      destruct v; try (exfalso; apply Hf; reflexivity);
        apply (Hstep (dict_del f cfg) _ Hdel); rewrite ?E; reflexivity.
    + apply (Hstep cfg d); [auto | rewrite ?E; reflexivity].
Qed.

(** A mapping without a null server field whose [gui] entry is absent or a
    mapping goes through the pass of the loop. *)
Lemma splits_dict name (cfg : pydict) :
  dict_get "initialize" cfg <> Some VNone ->
  (dict_get "gui" cfg = None \/ exists g, dict_get "gui" cfg = Some (VDict g)) ->
  splits (name, VDict cfg).
Proof.
  intros Hnn Hgui. unfold splits. cbn [snd]. unfold splitInstrument.
  destruct (serverFields_total cfg Hnn) as (cfg1 & Hrun & Hkeep).
  rewrite Hrun. simpl. destruct Hgui as [Hg | [g Hg]].
  - rewrite guiField_absent by (rewrite Hkeep; exact Hg). simpl.
    eexists. reflexivity.
  - rewrite (guiField_dict cfg1 g) by (rewrite Hkeep; exact Hg). simpl.
    eexists. reflexivity.
Qed.

(** [loadConfig] returns when the document is a mapping whose [instruments]
    entry is a mapping and every pass of the loop goes through. *)
Lemma loadConfig_returns (top items : pydict) :
  dict_get "instruments" top = Some (VDict items) ->
  List.Forall splits items ->
  exists out, loadConfig (VDict top) = Returned out.
Proof.
  intros Htop Hall. rewrite (loadConfig_run top items Htop).
  destruct (splitInstruments_returns items (Locals items [] [] []) Hall)
    as [st Hst].
  rewrite Hst. eexists. reflexivity.
Qed.

Lemma two_instruments_wf :
  dict_wf [("scope", VDict scope_settings); ("dummy", VDict [])].
Proof.
  unfold dict_wf. simpl. repeat constructor; simpl; intuition discriminate.
Qed.

(** ** The gui field *)

(** C9. For an instrument whose [gui] entry is there and null, the pass for
    this instrument raises the [AttributeError] that null server fields
    raise, here ['"gui" field cannot be None'] unless a null server field is
    met first; the default GUI descriptor is not put in its place, and
    [loadConfig] fails. *)
Theorem gui_null_fails (top items : pydict) name (cfg : pydict) :
  dict_get "instruments" top = Some (VDict items) ->
  In (name, VDict cfg) items ->
  dict_get "gui" cfg = Some VNone ->
  (dict_get "initialize" cfg <> Some VNone ->
     splitInstrument (VDict cfg) = Raised (cannot_be_None "gui")) /\
  (exists f, splitInstrument (VDict cfg) = Raised (cannot_be_None f)) /\
  (exists e, loadConfig (VDict top) = Raised e) /\
  (forall pre post,
     items = pre ++ (name, VDict cfg) :: post -> List.Forall splits pre ->
     exists f, loadConfig (VDict top) = Raised (cannot_be_None f)).
Proof.
  intros Htop Hin Hgui.
  assert (Hpass : dict_get "initialize" cfg <> Some VNone ->
                  splitInstrument (VDict cfg) = Raised (cannot_be_None "gui")).
  { intros Hnn. destruct (serverFields_total cfg Hnn) as (cfg1 & Hrun & Hkeep).
    unfold splitInstrument. rewrite Hrun. simpl.
    rewrite guiField_null by (rewrite Hkeep; exact Hgui). reflexivity. }
  assert (Hfail : exists f, splitInstrument (VDict cfg) = Raised (cannot_be_None f)).
  { destruct (dict_get "initialize" cfg) as [v|] eqn:E.
    - destruct v;
        try (exists "gui"; apply Hpass; discriminate).
      exists "initialize". apply splitInstrument_null_field. exact E.
    - exists "gui". apply Hpass. discriminate. }
  split; [exact Hpass | ]. split; [exact Hfail | ].
  destruct Hfail as [f Hf]. rewrite (loadConfig_run top items Htop). split.
  - destruct (splitInstruments_raises items name (VDict cfg) _
                (Locals items [] [] []) Hin Hf) as [e' He'].
    exists e'. rewrite He'. reflexivity.
  - intros pre post -> Hpre. exists f.
    rewrite (splitInstruments_first pre post name (VDict cfg) _ _ Hpre Hf).
    reflexivity.
Qed.

Lemma gui_null_fails_witness :
  dict_get "instruments" null_gui = Some (VDict [("scope", VDict [("gui", VNone)])]) /\
  In ("scope", VDict [("gui", VNone)]) [("scope", VDict [("gui", VNone)])] /\
  dict_get "gui" [("gui", VNone)] = Some VNone /\
  (dict_get "initialize" [("gui", VNone)] <> Some VNone ->
     splitInstrument (VDict [("gui", VNone)]) = Raised (cannot_be_None "gui")) /\
  (exists f, splitInstrument (VDict [("gui", VNone)]) = Raised (cannot_be_None f)) /\
  (exists e, loadConfig (VDict null_gui) = Raised e) /\
  (forall pre post,
     [("scope", VDict [("gui", VNone)])]
     = pre ++ ("scope", VDict [("gui", VNone)]) :: post ->
     List.Forall splits pre ->
     exists f, loadConfig (VDict null_gui) = Raised (cannot_be_None f)).
Proof.
  split; [reflexivity | ].
  split; [left; reflexivity | ].
  split; [reflexivity | ].
  apply (gui_null_fails null_gui [("scope", VDict [("gui", VNone)])]
           "scope" [("gui", VNone)]).
  - reflexivity.
  - left. reflexivity.
  - reflexivity.
Defined.

(** C6 as stated does not hold: [GENERIC] equals [generic] up to case, and
    the splitter leaves it as it is. *)
Lemma uppercase_generic_not_normalized :
  ~ (forall (top items : pydict) name (cfg g : pydict) t (st : locals),
       dict_get "instruments" top = Some (VDict items) ->
       dict_wf items ->
       In (name, VDict cfg) items ->
       dict_get "gui" cfg = Some (VDict g) ->
       dict_get "type" g = Some (VStr t) ->
       eq_nocase t "generic" = true ->
       splitConfig (VDict top) = Returned st ->
       exists g',
         dict_get name (guiConfig st) = Some (VDict g') /\
         dict_get "type" g' = Some (VStr default_gui_type)).
Proof.
  intros H.
  assert (Hwf : dict_wf [("scope", VDict [("gui", VDict [("type", VStr "GENERIC")])])]).
  { unfold dict_wf. simpl. repeat constructor. simpl. intuition. }
  destruct (H shouting_gui
              [("scope", VDict [("gui", VDict [("type", VStr "GENERIC")])])]
              "scope" [("gui", VDict [("type", VStr "GENERIC")])]
              [("type", VStr "GENERIC")] "GENERIC"
              (Locals [("scope", VDict [])]
                      [("scope", VDict [("initialize", VBool true)])]
                      [("scope", VDict [("type", VStr "GENERIC")])]
                      [("scope", VDict [("gui", VDict [("type", VStr "GENERIC")]);
                                        ("initialize", VBool true)])])
              eq_refl Hwf (or_introl eq_refl) eq_refl eq_refl eq_refl eq_refl)
    as (g' & Hg & Ht).
  simpl in Hg. injection Hg as <-. simpl in Ht. discriminate Ht.
Qed.

(** C6, amended.  For an instrument whose [gui] entry is a mapping with
    [type] spelled [generic] or [Generic], the pass for this instrument sets
    the type to the class path of [GUIFIELD], and whenever the loop of
    [loadConfig] completes, [guiConfig[name]['type']] is that class path. *)
Theorem generic_gui_normalized (top items : pydict) name (cfg g : pydict) t :
  dict_get "instruments" top = Some (VDict items) ->
  dict_wf items ->
  In (name, VDict cfg) items ->
  dict_get "gui" cfg = Some (VDict g) ->
  dict_get "type" g = Some (VStr t) ->
  t = "generic" \/ t = "Generic" ->
  (dict_get "initialize" cfg <> Some VNone ->
     exists i,
       splitInstrument (VDict cfg) = Returned i /\
       guiPart i = VDict (dict_set "type" (VStr default_gui_type) g)) /\
  (forall st,
     splitConfig (VDict top) = Returned st ->
     exists g',
       dict_get name (guiConfig st) = Some (VDict g') /\
       dict_get "type" g' = Some (VStr default_gui_type)).
Proof.
  intros Htop Hwf Hin Hgui Htype Ht.
  assert (Hnorm : forall cfg1, dict_get "gui" cfg1 = dict_get "gui" cfg ->
            guiField (VDict cfg1)
            = Returned (VDict (dict_del "gui" cfg1),
                        VDict (dict_set "type" (VStr default_gui_type) g))).
  { intros cfg1 Hkeep. rewrite (guiField_dict cfg1 g) by (rewrite Hkeep; exact Hgui).
    rewrite Htype. destruct Ht as [-> | ->]; reflexivity. }
  split.
  - intros Hnn. destruct (serverFields_total cfg Hnn) as (cfg1 & Hrun & Hkeep).
    unfold splitInstrument. rewrite Hrun. simpl.
    rewrite (Hnorm cfg1 Hkeep). simpl. eexists. split; reflexivity.
  - intros st Hst. rewrite (splitConfig_run top items Htop) in Hst.
    destruct (splitInstruments_spec items _ st Hwf Hst name (VDict cfg) Hin)
      as (i & Hi & _ & _ & Hg & _).
    destruct (splitInstrument_returned _ _ Hi) as (c1 & rest & Hsf & Hgf & _).
    destruct (serverFields_keeps_gui cfg c1 (serverPart i) Hsf)
      as (cfg1 & -> & Hkeep & _).
    rewrite (Hnorm cfg1 Hkeep) in Hgf. injection Hgf as _ Hgp.
    exists (dict_set "type" (VStr default_gui_type) g).
    rewrite Hg, <- Hgp. split; [reflexivity | apply dict_get_set_eq].
Qed.

Lemma generic_gui_normalized_witness :
  dict_get "instruments" two_instruments
  = Some (VDict [("scope", VDict scope_settings); ("dummy", VDict [])]) /\
  dict_wf [("scope", VDict scope_settings); ("dummy", VDict [])] /\
  In ("scope", VDict scope_settings)
     [("scope", VDict scope_settings); ("dummy", VDict [])] /\
  dict_get "gui" scope_settings = Some (VDict [("type", VStr "Generic")]) /\
  dict_get "type" [("type", VStr "Generic")] = Some (VStr "Generic") /\
  ("Generic" = "generic" \/ "Generic" = "Generic") /\
  (dict_get "initialize" scope_settings <> Some VNone ->
     exists i,
       splitInstrument (VDict scope_settings) = Returned i /\
       guiPart i
       = VDict (dict_set "type" (VStr default_gui_type) [("type", VStr "Generic")])) /\
  (forall st,
     splitConfig (VDict two_instruments) = Returned st ->
     exists g',
       dict_get "scope" (guiConfig st) = Some (VDict g') /\
       dict_get "type" g' = Some (VStr default_gui_type)).
Proof.
  split; [reflexivity | ].
  split; [exact two_instruments_wf | ].
  split; [left; reflexivity | ].
  split; [reflexivity | ].
  split; [reflexivity | ].
  split; [right; reflexivity | ].
  apply (generic_gui_normalized two_instruments
           [("scope", VDict scope_settings); ("dummy", VDict [])]
           "scope" scope_settings [("type", VStr "Generic")] "Generic").
  - reflexivity.
  - exact two_instruments_wf.
  - left. reflexivity.
  - reflexivity.
  - reflexivity.
  - right. reflexivity.
Defined.

(** ** The merged view *)

(** The settings left by [guiField] are the ones it got, without [gui]. *)
Lemma guiField_rest (cfg1 : pydict) c2 gui :
  guiField (VDict cfg1) = Returned (c2, gui) ->
  c2 = VDict cfg1 \/ c2 = VDict (dict_del "gui" cfg1).
Proof.
  unfold guiField. simpl. unfold dict_contains.
  destruct (dict_get "gui" cfg1) as [v|] eqn:E; simpl.
  - intros H. right.
    destruct v; simpl in H; try discriminate H;
      repeat match type of H with
        | context [match ?x with _ => _ end] =>
            destruct x; simpl in H; try discriminate H
        end;
      injection H as <- _; reflexivity.
  - intros H. injection H as <- _. left. reflexivity.
Qed.

Lemma guiField_rest_wf (cfg1 rest : pydict) gui :
  guiField (VDict cfg1) = Returned (VDict rest, gui) ->
  dict_wf cfg1 -> dict_wf rest.
Proof.
  intros H Hwf. destruct (guiField_rest cfg1 _ _ H) as [Heq | Heq];
    injection Heq as ->; [exact Hwf | apply dict_del_wf; exact Hwf].
Qed.


(** ** More on dictionaries *)

Lemma dict_del_absent k (d : pydict) : dict_get k d = None -> dict_del k d = d.
Proof.
  induction d as [|[k' v'] d IH]; simpl; [reflexivity | ].
  destruct (String.eqb k k'); [discriminate | ].
  intros H. f_equal. apply IH. exact H.
Qed.

Lemma dict_set_same k v (d : pydict) : dict_get k d = Some v -> dict_set k v d = d.
Proof.
  induction d as [|[k' v'] d IH]; simpl; [discriminate | ].
  destruct (String.eqb k k') eqn:E.
  - intros [= ->]. reflexivity.
  - intros H. f_equal. apply IH. exact H.
Qed.

Lemma dict_get_update_absent k (base extra : pydict) :
  dict_get k extra = None ->
  dict_get k (dict_update base extra) = dict_get k base.
Proof.
  unfold dict_update. revert base.
  induction extra as [|[k' v'] extra IH]; intros base; simpl; [reflexivity | ].
  destruct (String.eqb k k') eqn:E; [discriminate | ].
  intros H. rewrite IH by exact H.
  apply dict_get_set_ne. apply String.eqb_neq. exact E.
Qed.

Lemma dict_get_keys k (d : pydict) :
  In k (map fst d) -> exists v, dict_get k d = Some v.
Proof.
  induction d as [|[k' v'] d IH]; simpl; [intros [] | ].
  destruct (String.eqb k k') eqn:E; [eauto | ].
  intros [Heq | Hin]; [ | apply IH; exact Hin ].
  subst k'. rewrite String.eqb_refl in E. discriminate E.
Qed.

Lemma dict_set_keys_present k v (d : pydict) :
  In k (map fst d) -> map fst (dict_set k v d) = map fst d.
Proof.
  induction d as [|[k' v'] d IH]; simpl; [intros [] | ].
  destruct (String.eqb k k') eqn:E; simpl; [reflexivity | ].
  intros [Heq | Hin].
  - subst k'. rewrite String.eqb_refl in E. discriminate E.
  - f_equal. apply IH. exact Hin.
Qed.

Lemma dict_set_keys_absent k v (d : pydict) :
  ~ In k (map fst d) -> map fst (dict_set k v d) = map fst d ++ [k].
Proof.
  induction d as [|[k' v'] d IH]; simpl; [reflexivity | ].
  intros Hn. destruct (String.eqb k k') eqn:E; simpl.
  - apply String.eqb_eq in E. subst k'. exfalso. apply Hn. left. reflexivity.
  - f_equal. apply IH. intros Hin. apply Hn. right. exact Hin.
Qed.

(** ** More on one instrument *)

(** What [guiField] leaves of the settings is the settings without [gui]. *)
Lemma guiField_rest_del (cfg1 : pydict) c2 gui :
  guiField (VDict cfg1) = Returned (c2, gui) ->
  c2 = VDict (dict_del "gui" cfg1).
Proof.
  unfold guiField. simpl. unfold dict_contains.
  destruct (dict_get "gui" cfg1) as [v|] eqn:E; simpl.
  - intros H.
    destruct v; simpl in H; try discriminate H;
      repeat match type of H with
        | context [match ?x with _ => _ end] =>
            destruct x; simpl in H; try discriminate H
        end;
      injection H as <- _; reflexivity.
  - intros H. injection H as <- _. rewrite dict_del_absent by exact E.
    reflexivity.
Qed.

(** What a pass of the loop leaves of the settings: the settings without
    the server field and without [gui]. *)
Lemma splitInstrument_station (cfg : pydict) (i : instrument) :
  splitInstrument (VDict cfg) = Returned i ->
  stationPart i = VDict (dict_del "gui" (dict_del "initialize" cfg)) /\
  serverPart i
  = [("initialize",
      match dict_get "initialize" cfg with Some v => v | None => VBool true end)] /\
  fullPart i
  = spec_merge [("gui", guiPart i)]
               (dict_del "gui" (dict_del "initialize" cfg)) (serverPart i).
Proof.
  intros Hi.
  destruct (splitInstrument_returned _ _ Hi) as (c1 & rest & Hsf & Hgf & Hst & Hfp).
  assert (Hc1 : c1 = VDict (dict_del "initialize" cfg) /\
                serverPart i
                = [("initialize",
                    match dict_get "initialize" cfg with
                    | Some v => v
                    | None => VBool true
                    end)]).
  { rewrite serverFields_run in Hsf.
    destruct (dict_get "initialize" cfg) as [v|] eqn:E.
    - destruct v; try discriminate Hsf; injection Hsf as <- <-; auto.
    - injection Hsf as <- <-. rewrite dict_del_absent by exact E. auto. }
  destruct Hc1 as [-> Hsrv].
  apply guiField_rest_del in Hgf. injection Hgf as ->.
  rewrite Hst, Hfp. auto.
Qed.

(** The GUI view of an instrument is what [guiField] makes of its settings
    once the server fields are out. *)
Lemma guiConfig_of (top items : pydict) name (cfg : pydict) (st : locals) :
  dict_get "instruments" top = Some (VDict items) ->
  dict_wf items ->
  In (name, VDict cfg) items ->
  splitConfig (VDict top) = Returned st ->
  exists i cfg1 rest,
    splitInstrument (VDict cfg) = Returned i /\
    dict_get "gui" cfg1 = dict_get "gui" cfg /\
    guiField (VDict cfg1) = Returned (VDict rest, guiPart i) /\
    dict_get name (guiConfig st) = Some (guiPart i) /\
    dict_get name (fullConfig st) = Some (VDict (fullPart i)).
Proof.
  intros Htop Hwf Hin Hst. rewrite (splitConfig_run top items Htop) in Hst.
  destruct (splitInstruments_spec items _ st Hwf Hst name (VDict cfg) Hin)
    as (i & Hi & _ & _ & Hg & Hfull).
  destruct (splitInstrument_returned _ _ Hi) as (c1 & rest & Hsf & Hgf & _).
  destruct (serverFields_keeps_gui cfg c1 (serverPart i) Hsf)
    as (cfg1 & -> & Hkeep & _).
  exists i, cfg1, rest. auto.
Qed.

(** ** The gui field, the other cases *)

(** X11.  An instrument without a [gui] entry gets [GUIFIELD] as its GUI view,
    the default class path with empty [kwargs], and that descriptor is what
    [fullConfig[name]['gui']] holds. *)
Theorem gui_absent_gets_default (top items : pydict) name (cfg : pydict) (st : locals) :
  dict_get "instruments" top = Some (VDict items) ->
  dict_wf items ->
  In (name, VDict cfg) items ->
  dict_get "gui" cfg = None ->
  splitConfig (VDict top) = Returned st ->
  dict_get name (guiConfig st) = Some (VDict GUIFIELD) /\
  dict_get "type" GUIFIELD = Some (VStr default_gui_type) /\
  dict_get "kwargs" GUIFIELD = Some (VDict []) /\
  exists full,
    dict_get name (fullConfig st) = Some (VDict full) /\
    dict_get "gui" full = Some (VDict GUIFIELD).
Proof.
  intros Htop Hwf Hin Hgui Hst.
  destruct (guiConfig_of top items name cfg st Htop Hwf Hin Hst)
    as (i & cfg1 & rest & Hi & Hkeep & Hgf & Hg & Hfull).
  rewrite guiField_absent in Hgf by (rewrite Hkeep; exact Hgui).
  injection Hgf as _ Hgp.
  split; [rewrite Hg, <- Hgp; reflexivity | ].
  split; [reflexivity | ]. split; [reflexivity | ].
  exists (fullPart i). split; [exact Hfull | ].
  destruct (splitInstrument_station cfg i Hi) as (_ & Hsrv & Hfp).
  rewrite Hfp, Hsrv, <- Hgp. unfold spec_merge.
  rewrite dict_get_update_absent by reflexivity.
  rewrite dict_get_update_absent; [reflexivity | ].
  rewrite dict_del_absent;
    rewrite dict_get_del_ne by discriminate; exact Hgui.
Qed.

Lemma gui_absent_gets_default_witness :
  exists st,
    splitConfig (VDict two_instruments) = Returned st /\
    dict_get "gui" [] = None /\
    dict_get "dummy" (guiConfig st) = Some (VDict GUIFIELD) /\
    dict_get "type" GUIFIELD = Some (VStr default_gui_type) /\
    dict_get "kwargs" GUIFIELD = Some (VDict []) /\
    exists full,
      dict_get "dummy" (fullConfig st) = Some (VDict full) /\
      dict_get "gui" full = Some (VDict GUIFIELD).
Proof.
  eexists. split; [reflexivity | ]. split; [reflexivity | ].
  apply (gui_absent_gets_default two_instruments
           [("scope", VDict scope_settings); ("dummy", VDict [])] "dummy" []).
  - reflexivity.
  - exact two_instruments_wf.
  - right. left. reflexivity.
  - reflexivity.
  - reflexivity.
Defined.

(** X14.  A [gui] entry that is not a mapping and not null (a string such as
    [gui: generic], a number, a truth value, a list) makes the pass for the
    instrument raise [TypeError], and [loadConfig] fails. *)
Theorem gui_not_a_mapping_raises (top items : pydict) name (cfg : pydict) v :
  dict_get "instruments" top = Some (VDict items) ->
  In (name, VDict cfg) items ->
  dict_get "initialize" cfg <> Some VNone ->
  dict_get "gui" cfg = Some v ->
  v <> VNone -> (forall g, v <> VDict g) ->
  (exists msg, splitInstrument (VDict cfg) = Raised (TypeError msg)) /\
  exists e, loadConfig (VDict top) = Raised e.
Proof.
  intros Htop Hin Hnn Hgui Hv1 Hv2.
  assert (Hfail : exists msg, splitInstrument (VDict cfg) = Raised (TypeError msg)).
  { destruct (serverFields_total cfg Hnn) as (cfg1 & Hrun & Hkeep).
    unfold splitInstrument. rewrite Hrun. simpl.
    unfold guiField. simpl. unfold dict_contains.
    rewrite Hkeep, Hgui. simpl.
    destruct v as [|b|z|s0|l|g]; simpl.
    - exfalso. apply Hv1. reflexivity.
    - eexists. reflexivity.
    - eexists. reflexivity.
    - destruct (str_contains "type" s0); simpl; eexists; reflexivity.
    - destruct (existsb (fun x => eq_str x "type") l); simpl;
        eexists; reflexivity.
    - exfalso. apply (Hv2 g). reflexivity. }
  split; [exact Hfail | ].
  destruct Hfail as [msg Hf]. rewrite (loadConfig_run top items Htop).
  destruct (splitInstruments_raises items name (VDict cfg) _
              (Locals items [] [] []) Hin Hf) as [e' He'].
  exists e'. rewrite He'. reflexivity.
Qed.

Lemma gui_not_a_mapping_raises_witness :
  (exists msg,
     splitInstrument (VDict [("gui", VStr "generic")]) = Raised (TypeError msg)) /\
  exists e,
    loadConfig
      (VDict [("instruments", VDict [("scope", VDict [("gui", VStr "generic")])])])
    = Raised e.
Proof.
  apply (gui_not_a_mapping_raises
           [("instruments", VDict [("scope", VDict [("gui", VStr "generic")])])]
           [("scope", VDict [("gui", VStr "generic")])]
           "scope" [("gui", VStr "generic")] (VStr "generic")).
  - reflexivity.
  - left. reflexivity.
  - discriminate.
  - reflexivity.
  - discriminate.
  - intros g. discriminate.
Defined.

(** ** Documents without extracted fields *)

Lemma splitInstrument_plain (cfg : pydict) :
  dict_get "initialize" cfg = None -> dict_get "gui" cfg = None ->
  splitInstrument (VDict cfg)
  = Returned (Instrument (VDict cfg) [("initialize", VBool true)] (VDict GUIFIELD)
                (spec_merge [("gui", VDict GUIFIELD)] cfg
                            [("initialize", VBool true)])).
Proof.
  intros Hi Hg. unfold splitInstrument. rewrite serverFields_run, Hi. simpl.
  rewrite (guiField_absent cfg Hg). reflexivity.
Qed.

Lemma splitInstruments_plain (items : pydict) :
  dict_wf items ->
  forall (rest : pydict) (st0 : locals),
    (forall p, In p rest -> In p items) ->
    List.Forall plain_settings rest ->
    instruments st0 = items ->
    exists st, splitInstruments rest st0 = Returned st /\ instruments st = items.
Proof.
  intros Hwf. induction rest as [|[n c] rest IH]; intros st0 Hsub Hall Hins.
  - exists st0. auto.
  - apply List.Forall_cons_iff in Hall as [(cfg & Hc & Hi & Hg) Hall].
    simpl in Hc. subst c. simpl.
    rewrite (splitInstrument_plain cfg Hi Hg). simpl.
    apply IH.
    + intros p Hp. apply Hsub. right. exact Hp.
    + exact Hall.
    + simpl. rewrite Hins. apply dict_set_same.
      apply dict_get_wf_In; [exact Hwf | ]. apply Hsub. left. reflexivity.
Qed.

(** X16.  When no instrument has a server field or a [gui] entry, [loadConfig]
    returns and the document it hands on is the document it read. *)
Theorem plain_document_is_unchanged (top items : pydict) :
  dict_get "instruments" top = Some (VDict items) ->
  dict_wf items ->
  List.Forall plain_settings items ->
  exists out,
    loadConfig (VDict top) = Returned out /\ stationConfig out = VDict top.
Proof.
  intros Htop Hwf Hall. rewrite (loadConfig_run top items Htop).
  destruct (splitInstruments_plain items Hwf items (Locals items [] [] [])
              (fun p H => H) Hall eq_refl) as (st & Hrun & Hins).
  rewrite Hrun. eexists. split; [reflexivity | ].
  simpl. rewrite Hins. f_equal. apply dict_set_same. exact Htop.
Qed.

Lemma plain_document_is_unchanged_witness :
  exists out,
    loadConfig (VDict plain_document) = Returned out /\
    stationConfig out = VDict plain_document.
Proof.
  apply (plain_document_is_unchanged plain_document
           [("scope", VDict [("driver", VStr "qcodes.Scope")]); ("dummy", VDict [])]).
  - reflexivity.
  - unfold dict_wf. simpl. repeat constructor; simpl; intuition discriminate.
  - repeat constructor; eexists; simpl; auto.
Defined.

(** ** The views and the instruments *)

Lemma splitInstruments_keys (items : pydict) :
  forall st0 st,
    List.NoDup (map fst items) ->
    (forall k, In k (map fst items) -> In k (map fst (instruments st0))) ->
    (forall k, In k (map fst items) -> ~ In k (map fst (serverConfig st0))) ->
    (forall k, In k (map fst items) -> ~ In k (map fst (guiConfig st0))) ->
    (forall k, In k (map fst items) -> ~ In k (map fst (fullConfig st0))) ->
    splitInstruments items st0 = Returned st ->
    map fst (instruments st) = map fst (instruments st0) /\
    map fst (serverConfig st) = map fst (serverConfig st0) ++ map fst items /\
    map fst (guiConfig st) = map fst (guiConfig st0) ++ map fst items /\
    map fst (fullConfig st) = map fst (fullConfig st0) ++ map fst items.
Proof.
  induction items as [|[n c] items IH]; intros st0 st Hnd Hi Hs Hg Hf Hrun.
  - injection Hrun as <-. simpl. rewrite !app_nil_r. auto.
  - simpl in Hnd. apply List.NoDup_cons_iff in Hnd as [Hnotin Hnd].
    simpl in Hrun. destruct (splitInstrument c) as [i|e]; simpl in Hrun;
      [ | discriminate ].
    assert (Hfresh : forall (d : pydict) v k,
              ~ In n (map fst d) ->
              (forall k, In k (map fst ((n, c) :: items)) -> ~ In k (map fst d)) ->
              In k (map fst items) -> ~ In k (map fst (dict_set n v d))).
    { intros d v k Hn Hd Hk. rewrite dict_set_keys_absent by exact Hn.
      rewrite in_app_iff. intros [Hin | [-> | []]].
      - apply (Hd k); [right; exact Hk | exact Hin].
      - exact (Hnotin Hk). }
    apply IH in Hrun; try exact Hnd; simpl.
    + destruct Hrun as (H1 & H2 & H3 & H4). simpl in H1, H2, H3, H4.
      rewrite H1, H2, H3, H4.
      rewrite dict_set_keys_present by (apply Hi; left; reflexivity).
      rewrite !dict_set_keys_absent
        by (first [apply Hs | apply Hg | apply Hf]; left; reflexivity).
      rewrite <- !app_assoc. auto.
    + intros k Hk.
      rewrite dict_set_keys_present by (apply Hi; left; reflexivity).
      apply Hi. right. exact Hk.
    + intros k Hk. apply Hfresh; auto. apply Hs. left. reflexivity.
    + intros k Hk. apply Hfresh; auto. apply Hg. left. reflexivity.
    + intros k Hk. apply Hfresh; auto. apply Hf. left. reflexivity.
Qed.

(** X17.  Whenever the loop of [loadConfig] completes, each of the views (server,
    GUI, full) and the instruments of the document handed on list exactly
    the instruments of the document read, in the same order. *)
Theorem views_list_the_instruments (top items : pydict) (st : locals) :
  dict_get "instruments" top = Some (VDict items) ->
  dict_wf items ->
  splitConfig (VDict top) = Returned st ->
  map fst (instruments st) = map fst items /\
  map fst (serverConfig st) = map fst items /\
  map fst (guiConfig st) = map fst items /\
  map fst (fullConfig st) = map fst items.
Proof.
  intros Htop Hwf Hst. rewrite (splitConfig_run top items Htop) in Hst.
  apply (splitInstruments_keys items (Locals items [] [] []) st Hwf) in Hst;
    simpl; auto.
Qed.

Lemma views_list_the_instruments_witness :
  exists st,
    splitConfig (VDict two_instruments) = Returned st /\
    map fst (instruments st) = ["scope"; "dummy"] /\
    map fst (serverConfig st) = ["scope"; "dummy"] /\
    map fst (guiConfig st) = ["scope"; "dummy"] /\
    map fst (fullConfig st) = ["scope"; "dummy"].
Proof.
  eexists. split; [reflexivity | ].
  apply (views_list_the_instruments two_instruments
           [("scope", VDict scope_settings); ("dummy", VDict [])]).
  - reflexivity.
  - exact two_instruments_wf.
  - reflexivity.
Defined.

(** ** Failures *)

(** X18.  A document that cannot be split: without an [instruments] entry
    [loadConfig] raises [KeyError('instruments')]; an empty document
    ([None]) or a list raises [TypeError]; an [instruments] entry that is
    not a mapping raises [AttributeError], as it has no [items]. *)
Theorem malformed_document_raises :
  (forall top : pydict,
     dict_get "instruments" top = None ->
     loadConfig (VDict top) = Raised (KeyError "instruments")) /\
  loadConfig VNone = Raised (TypeError "'NoneType' object is not subscriptable") /\
  (forall l, exists msg, loadConfig (VList l) = Raised (TypeError msg)) /\
  (forall (top : pydict) v,
     dict_get "instruments" top = Some v ->
     (forall d, v <> VDict d) ->
     exists msg, loadConfig (VDict top) = Raised (AttributeError msg)).
Proof.
  split; [ | split; [ | split ] ].
  - intros top H. unfold loadConfig, splitConfig. simpl. rewrite H. reflexivity.
  - reflexivity.
  - intros l. eexists. reflexivity.
  - intros top v H Hv. unfold loadConfig, splitConfig. simpl. rewrite H. simpl.
    destruct v; try (eexists; reflexivity).
    exfalso. apply (Hv d). reflexivity.
Qed.

Lemma splitInstruments_all_split (items : pydict) (st0 st : locals) :
  splitInstruments items st0 = Returned st -> List.Forall splits items.
Proof.
  revert st0. induction items as [|[n c] items IH]; intros st0 Hrun.
  - constructor.
  - simpl in Hrun. destruct (splitInstrument c) as [i|e] eqn:Hi; simpl in Hrun;
      [ | discriminate ].
    constructor; [exists i; exact Hi | eapply IH; exact Hrun].
Qed.

(** X19.  [loadConfig] returns exactly when the pass for every instrument goes
    through; when one does not, [loadConfig] raises the exception of the
    first such instrument in the order of the document, and returns no
    view at all. *)
Theorem loadConfig_all_or_nothing (top items : pydict) :
  dict_get "instruments" top = Some (VDict items) ->
  ((exists out, loadConfig (VDict top) = Returned out) <-> List.Forall splits items) /\
  (forall pre name c post e,
     items = pre ++ (name, c) :: post ->
     List.Forall splits pre ->
     splitInstrument c = Raised e ->
     loadConfig (VDict top) = Raised e).
Proof.
  intros Htop. rewrite (loadConfig_run top items Htop). split; [split | ].
  - intros [out Hout].
    destruct (splitInstruments items (Locals items [] [] [])) as [st|e] eqn:Hrun;
      [ | discriminate ].
    eapply splitInstruments_all_split. exact Hrun.
  - intros Hall.
    destruct (splitInstruments_returns items (Locals items [] [] []) Hall)
      as [st Hst].
    rewrite Hst. eexists. reflexivity.
  - intros pre name c post e -> Hpre Hfail.
    rewrite (splitInstruments_first pre post name c e _ Hpre Hfail). reflexivity.
Qed.

Lemma loadConfig_all_or_nothing_witness :
  ((exists out, loadConfig (VDict null_gui) = Returned out)
   <-> List.Forall splits [("scope", VDict [("gui", VNone)])]) /\
  (forall pre name c post e,
     [("scope", VDict [("gui", VNone)])] = pre ++ (name, c) :: post ->
     List.Forall splits pre ->
     splitInstrument c = Raised e ->
     loadConfig (VDict null_gui) = Raised e).
Proof.
  apply (loadConfig_all_or_nothing null_gui [("scope", VDict [("gui", VNone)])]).
  reflexivity.
Defined.

(** X20.  Settings that are not a mapping never go through the pass: null
    settings, a number, a truth value or a list raise [TypeError]; a string
    raises [TypeError], or [AttributeError] when it has the name of an
    extracted field in it. *)
Theorem settings_not_a_mapping_raise (c : pyval) :
  (forall d, c <> VDict d) ->
  exists e,
    splitInstrument c = Raised e /\
    (exc_class e = ClsTypeError \/
     exists s0, c = VStr s0 /\ exc_class e = ClsAttributeError /\
                (str_contains "initialize" s0 = true \/ str_contains "gui" s0 = true)).
Proof.
  intros Hc. unfold splitInstrument.
  destruct c as [|b|z|s0|l|d]; simpl.
  - eexists. split; [reflexivity | left; reflexivity].
  - eexists. split; [reflexivity | left; reflexivity].
  - eexists. split; [reflexivity | left; reflexivity].
  - destruct (str_contains "initialize" s0) eqn:E1; simpl.
    + eexists. split; [reflexivity | ]. right. exists s0. auto.
    + unfold guiField. simpl.
      destruct (str_contains "gui" s0) eqn:E2; simpl.
      * eexists. split; [reflexivity | ]. right. exists s0. auto.
      * eexists. split; [reflexivity | left; reflexivity].
  - destruct (existsb (fun x => eq_str x "initialize") l); simpl.
    + eexists. split; [reflexivity | left; reflexivity].
    + unfold guiField. simpl.
      destruct (existsb (fun x => eq_str x "gui") l); simpl;
        eexists; (split; [reflexivity | left; reflexivity]).
  - exfalso. apply (Hc d). reflexivity.
Qed.

Lemma settings_not_a_mapping_raise_witness :
  exists e,
    splitInstrument VNone = Raised e /\
    (exc_class e = ClsTypeError \/
     exists s0, VNone = VStr s0 /\ exc_class e = ClsAttributeError /\
                (str_contains "initialize" s0 = true \/ str_contains "gui" s0 = true)).
Proof.
  apply (settings_not_a_mapping_raise VNone). intros d. discriminate.
Defined.

(** ** The table of server fields *)

Lemma serverFields_any_witness :
  exists cfg' srv',
    serverFields two_fields (VDict [("autostart", VBool true); ("port", VInt 1)]) []
    = Returned (VDict cfg', srv') /\
    (forall k,
       dict_get k srv'
       = match dict_get k two_fields with
         | Some d =>
             Some (match dict_get k [("autostart", VBool true); ("port", VInt 1)] with
                   | Some v => v
                   | None => d
                   end)
         | None => dict_get k []
         end) /\
    (forall k, ~ In k (map fst two_fields) ->
               dict_get k cfg'
               = dict_get k [("autostart", VBool true); ("port", VInt 1)]).
Proof.
  apply (serverFields_any two_fields).
  - unfold dict_wf. simpl. repeat constructor; simpl; intuition discriminate.
  - intros f [<- | [<- | []]]; discriminate.
Defined.

(** X22.  For any table of server fields, the first field of the table that is
    null in the settings stops the loop with
    [AttributeError('"field" field cannot be None')], whatever comes after
    it in the table. *)
Theorem serverFields_first_null (pre post : pydict) f d :
  dict_wf (pre ++ (f, d) :: post) ->
  forall (cfg srv : pydict),
    (forall f', In f' (map fst pre) -> dict_get f' cfg <> Some VNone) ->
    dict_get f cfg = Some VNone ->
    serverFields (pre ++ (f, d) :: post) (VDict cfg) srv
    = Raised (cannot_be_None f).
Proof.
  unfold dict_wf. induction pre as [|[f0 d0] pre IH]; intros Hnd cfg srv Hpre Hnull.
  - simpl. unfold dict_contains. rewrite Hnull. simpl. rewrite ?Hnull. reflexivity.
  - simpl in Hnd. apply List.NoDup_cons_iff in Hnd as [Hnotin Hnd].
    assert (Hne : f <> f0).
    { intros ->. apply Hnotin. rewrite map_app, in_app_iff. right. left.
      reflexivity. }
    assert (Hne' : forall f', In f' (map fst pre) -> f' <> f0).
    { intros f' Hin ->. apply Hnotin. rewrite map_app, in_app_iff. left.
      exact Hin. }
    assert (Hf0 : dict_get f0 cfg <> Some VNone) by (apply Hpre; left; reflexivity).
    simpl. unfold dict_contains.
    destruct (dict_get f0 cfg) as [v|] eqn:E; simpl.
    + destruct v; try (exfalso; apply Hf0; reflexivity);
        (apply IH;
         [ exact Hnd
         | intros f' Hin; rewrite dict_get_del_ne by (apply Hne'; exact Hin);
           apply Hpre; right; exact Hin
         | rewrite dict_get_del_ne by exact Hne; exact Hnull ]).
    + apply IH; [exact Hnd | | exact Hnull].
      intros f' Hin. apply Hpre. right. exact Hin.
Qed.

Lemma serverFields_first_null_witness :
  serverFields ([("initialize", VBool true)] ++ ("autostart", VBool false) :: [])
               (VDict [("autostart", VNone); ("initialize", VBool false)]) []
  = Raised (cannot_be_None "autostart").
Proof.
  apply (serverFields_first_null [("initialize", VBool true)] []
           "autostart" (VBool false)).
  - unfold dict_wf. simpl. repeat constructor; simpl; intuition discriminate.
  - intros f' [<- | []]. discriminate.
  - reflexivity.
Defined.

(** ** The merged view and the settings as written *)



(** ** The merged view, as corrected *)



End ConfigFacts.

(** * Properties of the loop on shared settings *)

Module SharedFacts.
Import Config Shared ConfigFacts.

Lemma heap_set_other ref v (h : heap) r : r <> ref -> heap_set ref v h r = h r.
Proof.
  intros Hne. unfold heap_set. apply Nat.eqb_neq in Hne. rewrite Hne. reflexivity.
Qed.

Lemma heap_set_same ref v (h : heap) : heap_set ref v h ref = v.
Proof. unfold heap_set. rewrite Nat.eqb_refl. reflexivity. Qed.




(** When no two instruments share a settings object, the loop on the
    objects and the loop by value give the same views, or raise the same
    exception. *)
Lemma splitShared_by_value (items : list (string * nat)) :
  List.NoDup (map snd items) ->
  forall (h : heap) (srv gui full vals : pydict),
    match splitShared items (SharedLocals h srv gui full),
          splitInstruments (as_written h items) (Locals vals srv gui full) with
    | Returned sh, Returned l =>
        sh_serverConfig sh = serverConfig l /\
        sh_guiConfig sh = guiConfig l /\
        sh_fullConfig sh = fullConfig l
    | Raised e1, Raised e2 => e1 = e2
    | _, _ => False
    end.
Proof.
  induction items as [|[n r] items IH]; intros Hnd h srv gui full vals.
  - simpl. auto.
  - simpl in Hnd. apply List.NoDup_cons_iff in Hnd as [Hnotin Hnd].
    simpl. destruct (splitInstrument (h r)) as [i|e]; simpl; [ | reflexivity ].
    assert (Hsame : as_written (heap_set r (stationPart i) h) items
                    = as_written h items).
    { unfold as_written. apply map_ext_in. intros [n' r'] Hin. simpl.
      f_equal. apply heap_set_other. intros ->. apply Hnotin.
      apply (in_map snd) in Hin. exact Hin. }
    rewrite <- Hsame. apply IH. exact Hnd.
Qed.


(** ** Server fields *)

(** C7, where the code departs from it.  Two instruments have one settings
    object (a YAML anchor and its alias), and the server field is written
    in it with a value that is not null.  The pass of the first instrument
    pops the field from the object, so the pass of the second one finds the
    field absent: the first instrument gets the value written, the second
    one gets the default, although its settings as written hold the same
    value. *)
Theorem shared_settings_get_the_default (h : heap) a b r (cfg : pydict) v :
  a <> b ->
  h r = VDict cfg -> dict_wf cfg ->
  dict_get "initialize" cfg = Some v -> v <> VNone ->
  (dict_get "gui" cfg = None \/ exists g, dict_get "gui" cfg = Some (VDict g)) ->
  dict_get b (as_written h [(a, r); (b, r)]) = Some (VDict cfg) /\
  exists st,
    loadShared [(a, r); (b, r)] h = Returned st /\
    dict_get a (sh_serverConfig st) = Some (VDict [("initialize", v)]) /\
    dict_get b (sh_serverConfig st) = Some (VDict [("initialize", VBool true)]).
Proof.
  intros Hab Hh Hwf Hinit Hv Hgui.
  assert (Hba : String.eqb b a = false)
    by (apply String.eqb_neq; intros ->; apply Hab; reflexivity).
  split.
  - simpl. rewrite Hba, String.eqb_refl, Hh. reflexivity.
  - assert (Hnn : dict_get "initialize" cfg <> Some VNone)
      by (rewrite Hinit; intros [= ->]; apply Hv; reflexivity).
    destruct (splits_dict a cfg Hnn Hgui) as [i Hi]. simpl in Hi.
    destruct (splitInstrument_station cfg i Hi) as (Hst & Hsrv & _).
    rewrite Hinit in Hsrv.
    set (rest := dict_del "gui" (dict_del "initialize" cfg)) in *.
    assert (Hri : dict_get "initialize" rest = None).
    { unfold rest. rewrite dict_get_del_ne by discriminate.
      apply dict_get_del_eq. exact Hwf. }
    assert (Hrg : dict_get "gui" rest = None)
      by (apply dict_get_del_eq; apply dict_del_wf; exact Hwf).
    unfold loadShared. simpl. rewrite Hh, Hi. simpl.
    rewrite heap_set_same, Hst, (splitInstrument_plain rest Hri Hrg). simpl.
    eexists. split; [reflexivity | ]. simpl. rewrite Hba. simpl.
    rewrite Hsrv, !String.eqb_refl, ?Hba, ?String.eqb_refl. split; reflexivity.
Qed.

Lemma shared_settings_get_the_default_witness :
  "scope" <> "spare" /\
  aliased_heap 0%nat = VDict aliased_settings /\
  dict_wf aliased_settings /\
  dict_get "initialize" aliased_settings = Some (VBool false) /\
  VBool false <> VNone /\
  dict_get "spare" (as_written aliased_heap aliased_items)
  = Some (VDict aliased_settings) /\
  exists st,
    loadShared aliased_items aliased_heap = Returned st /\
    dict_get "scope" (sh_serverConfig st) = Some (VDict [("initialize", VBool false)]) /\
    dict_get "spare" (sh_serverConfig st) = Some (VDict [("initialize", VBool true)]).
Proof.
  assert (Hwf : dict_wf aliased_settings).
  { unfold dict_wf. simpl. repeat constructor; simpl; intuition discriminate. }
  split; [discriminate | ]. split; [reflexivity | ]. split; [exact Hwf | ].
  split; [reflexivity | ]. split; [discriminate | ].
  apply (shared_settings_get_the_default aliased_heap "scope" "spare" 0%nat
           aliased_settings (VBool false)).
  - discriminate.
  - reflexivity.
  - exact Hwf.
  - reflexivity.
  - discriminate.
  - right. eexists. reflexivity.
Defined.



(** ** The gui field of an instrument that is the first on its settings *)






End SharedFacts.
